(** * bridge-v2 API: block scan and enrichment handlers

    A shallow embedding of the two versions of the API server found in the
    repository ([src/api/src/app.ts] and the later revision kept as
    [src/unnamed/part_000]) together with the properties that the
    specification states about them.

    The handlers are written in a small state-and-exception monad over a
    [World] made of the transaction table and a trace of the observable
    effects (console lines, node requests, saves).  JavaScript exceptions are
    the [Throw] outcome; effects performed before a throw are kept. *)

From Stdlib Require Import String List Bool Arith NArith Lia DecimalString.
Import ListNotations.
Local Open Scope string_scope.
Local Open Scope list_scope.

(** ** JavaScript values held by the settlement fields *)

Module JS.

(** What a nullable string property can hold at run time. *)
Inductive value : Type :=
| undefined
| null
| str (s : string).

(** ToBoolean: [undefined], [null] and the empty string are falsy. *)
Definition truthy (v : value) : bool :=
  match v with
  | str s => negb (String.eqb s "")
  | _ => false
  end.

(** A property that holds a string at all. *)
Definition present (v : value) : bool :=
  match v with
  | str _ => true
  | _ => false
  end.

Definition absent (v : value) : bool := negb (present v).

(** [Array.prototype.at] for a non-negative index. *)
Definition at_ (x : list string) (i : nat) : value :=
  match nth_error x i with
  | Some s => str s
  | None => undefined
  end.

(** [Array.prototype.join]. *)
Definition join (sep : string) (x : list string) : string :=
  String.concat sep x.

Inductive Error : Type :=
| TypeError (msg : string)
| Rejected (msg : string)
| Unfollowed (what : string).
(* [Unfollowed] is no exception of the program: the run has reached a call
   whose result depends on something this development does not determine,
   and is followed no further. *)

(** The text of [`${error}`]. *)
Definition render (e : Error) : string :=
  match e with
  | TypeError m => "TypeError: " ++ m
  | Rejected m => m
  | Unfollowed what => what
  end.

(** The numbers the handlers compute with, as far as they are followed: a
    natural number that a double holds exactly, NaN, or [Other] for a value
    that is not determined here (a negative, fractional or infinite number,
    an integer above 2^53 - 1, or the reading of a text that is not
    parsed). *)
Inductive Num : Type :=
| Finite (n : nat)
| NaN
| Other.

(** Within the integers that a double holds exactly. *)
Definition exact (n : nat) : bool := N.leb (N.of_nat n) 9007199254740991.

Definition digit_of (c : Ascii.ascii) : option nat :=
  let n := Ascii.nat_of_ascii c in
  if Nat.leb 48 n && Nat.leb n 57 then Some (n - 48) else None.

Fixpoint digits_from (acc : nat) (s : string) : option nat :=
  match s with
  | EmptyString => Some acc
  | String c rest =>
      match digit_of c with
      | Some d => digits_from (10 * acc + d) rest
      | None => None
      end
  end.

(** A letter of the Latin alphabet other than I: no numeral, blank or
    [Infinity] starts with it. *)
Definition starts_no_numeral (c : Ascii.ascii) : bool :=
  let n := Ascii.nat_of_ascii c in
  (Nat.leb 65 n && Nat.leb n 90 && negb (Nat.eqb n 73))
  || (Nat.leb 97 n && Nat.leb n 122).

(** [Number(text)].  A text of decimal digits only reads as that number
    (the empty text reads 0), exactly up to 2^53 - 1.  A text that starts
    with a letter other than I is no numeral and reads NaN.  [Number] also
    reads signs, fractions, exponents, other radixes, [Infinity] and
    surrounding blanks: those texts are not parsed here and read [Other]. *)
Definition to_number (text : string) : Num :=
  match digits_from 0 text with
  | Some n => if exact n then Finite n else Other
  | None =>
      match text with
      | String c _ => if starts_no_numeral c then NaN else Other
      | EmptyString => Other
      end
  end.

(** [a * b]: NaN when one of them is. *)
Definition times (a b : Num) : Num :=
  match a, b with
  | NaN, _ => NaN
  | _, NaN => NaN
  | Finite x, Finite y => if exact (x * y) then Finite (x * y) else Other
  | _, _ => Other
  end.

End JS.
Import JS.

(** ** Blocks as the node returns them *)

(** An argument of a call: only its rendering is used. *)
Record Codec : Type := { toString : string }.

Record Hash : Type := { toHex : string }.

(** An extrinsic after destructuring: [method: { args, method, section }],
    [isSigned], [meta], [hash], [signer], [nonce]. *)
Record Extrinsic : Type := {
  isSigned : bool;
  meta : string;
  args : list Codec;
  method : string;
  section : string;
  hash : Hash;
  signer : Codec;
  nonce : Codec
}.

Record Block : Type := { extrinsics : list Extrinsic }.

Record SignedBlock : Type := { block : Block }.

(** The resolution of the promise returned by a remote call. *)
Inductive Fetch (A : Type) : Type :=
| Fetched (a : A)
| Failed (error : string).
Arguments Fetched {A} a.
Arguments Failed {A} error.

(** [api]: the connection to the node.  The handlers call
    [api.rpc.chain.getBlock]; the fee and the timestamp the node reports for
    a block are read only by the helper of [./glitch]. *)
Record ApiPromise : Type := {
  getBlock : string -> Fetch SignedBlock;
  feeAt : string -> value;
  timestampAt : string -> value
}.

(** [provider]: the connection to the Ethereum node.  [getTransaction]
    resolves to [null] ([None]) for an unknown hash. *)
Record EthTransaction : Type := { blockNumber : nat }.

Record EthBlock : Type := { block_timestamp : nat }.

Record JsonRpcProvider : Type := {
  getTransaction : string -> Fetch (option EthTransaction);
  getEthBlock : nat -> Fetch EthBlock
}.

(** ** The transaction table *)

(** Modelled from the spec: the [Tx] entity ([./entity/Tx] is not among the
    source files).  Fields are those of the TransactionRecord of the
    specification, which are also the ones the handlers read and write. *)
Record Tx : Type := {
  id : nat;
  from_eth_address : string;
  to_glitch_address : string;
  tx_eth_hash : string;
  tx_glitch_hash : string;
  net_amount : value;
  extrinsic_hash : value
}.

(** [tx.extrinsic_hash = e; tx.net_amount = n] on a loaded entity. *)
Definition assign (tx : Tx) (n e : value) : Tx :=
  {| id := id tx;
     from_eth_address := from_eth_address tx;
     to_glitch_address := to_glitch_address tx;
     tx_eth_hash := tx_eth_hash tx;
     tx_glitch_hash := tx_glitch_hash tx;
     net_amount := n;
     extrinsic_hash := e |}.

Module Repository.

(** One element of a [where] array: the properties given must all be
    equal; the elements of the array are alternatives. *)
Record FindConditions : Type := {
  where_from_eth_address : option string;
  where_to_glitch_address : option string;
  where_tx_eth_hash : option string
}.

Definition holds (c : option string) (s : string) : bool :=
  match c with
  | Some x => String.eqb s x
  | None => true
  end.

Definition satisfies (c : FindConditions) (r : Tx) : bool :=
  holds (where_from_eth_address c) (from_eth_address r)
  && holds (where_to_glitch_address c) (to_glitch_address r)
  && holds (where_tx_eth_hash c) (tx_eth_hash r).

(** [take] and [skip] as numbers; the repository applies [Number] to a
    [take] that arrives as text. *)
Record FindManyOptions : Type := {
  take : option Num;
  skip : option Num;
  where_ : list FindConditions
}.

(** [find] of the TypeORM repository: the rows that satisfy one of the
    alternatives, in table order.  A [skip] is applied when it is truthy: 0
    and NaN skip nothing.  A [take] that is no number makes the promise
    reject (with the message of TypeORM, here without its quotation marks);
    a [take] of 0 puts no limit, so every row after the skipped ones is
    given; otherwise at most [take] rows are.  With a [take] or [skip] that
    is [Other] the query is left to the database and the result is not
    determined here: [None]. *)
Definition find (o : FindManyOptions) (rows : list Tx) : option (Fetch (list Tx)) :=
  let matching := filter (fun r => existsb (fun c => satisfies c r) (where_ o)) rows in
  let skipped := match skip o with
                 | Some (Finite n) => Some (skipn n matching)
                 | Some NaN => Some matching
                 | Some Other => None
                 | None => Some matching
                 end in
  match take o, skipped with
  | Some NaN, _ =>
      Some (Failed "Provided take value is not a number. Please provide a numeric value.")
  | Some Other, _ => None
  | _, None => None
  | Some (Finite 0), Some after => Some (Fetched after)
  | Some (Finite n), Some after => Some (Fetched (firstn n after))
  | None, Some after => Some (Fetched after)
  end.

(** [findOne]: the first row that satisfies the conditions, or
    [undefined] ([None]). *)
Definition findOne (c : FindConditions) (rows : list Tx) : option Tx :=
  List.find (satisfies c) rows.

(** In a TypeORM save an [undefined] property is skipped, so the column
    keeps its value (partial update); [null] and strings are written. *)
Definition column (old new : value) : value :=
  match new with
  | undefined => old
  | _ => new
  end.

Definition update (old new : Tx) : Tx :=
  {| id := id old;
     from_eth_address := from_eth_address new;
     to_glitch_address := to_glitch_address new;
     tx_eth_hash := tx_eth_hash new;
     tx_glitch_hash := tx_glitch_hash new;
     net_amount := column (net_amount old) (net_amount new);
     extrinsic_hash := column (extrinsic_hash old) (extrinsic_hash new) |}.

(** [save]: update the row with the entity's primary key, insert the
    entity when there is none (an [undefined] property is stored as
    NULL). *)
Fixpoint save (tx : Tx) (rows : list Tx) : list Tx :=
  match rows with
  | [] => [assign tx (column null (net_amount tx)) (column null (extrinsic_hash tx))]
  | r :: rest =>
      if Nat.eqb (id r) (id tx) then update r tx :: rest
      else r :: save tx rest
  end.

End Repository.

(** ** Effects *)

Inductive Event : Type :=
| Console (line : string)          (* console.info / log / error, without the date prefix *)
| GetBlock (glitchHash : string)   (* api.rpc.chain.getBlock *)
| Save (tx : Tx)                   (* txRepository.save *)
| GetTransaction (hash : string)   (* provider.getTransaction *)
| GetEthBlock (number : nat).      (* provider.getBlock *)

Record World : Type := {
  db : list Tx;
  trace : list Event                (* most recent first *)
}.

Inductive Outcome (A : Type) : Type :=
| Return (a : A)
| Throw (e : Error).
Arguments Return {A} a.
Arguments Throw {A} e.

Definition M (A : Type) : Type := World -> Outcome A * World.

Definition ret {A} (a : A) : M A := fun w => (Return a, w).

Definition throw {A} (e : Error) : M A := fun w => (Throw e, w).

Definition bind {A B} (m : M A) (k : A -> M B) : M B :=
  fun w =>
    match m w with
    | (Return a, w') => k a w'
    | (Throw e, w') => (Throw e, w')
    end.

Definition try_catch {A} (m : M A) (handler : Error -> M A) : M A :=
  fun w =>
    match m w with
    | (Return a, w') => (Return a, w')
    | (Throw e, w') => handler e w'
    end.

Notation "x <- m ;; k" := (bind m (fun x => k))
  (at level 61, m at next level, right associativity).
Notation "m ;; k" := (bind m (fun _ => k))
  (at level 61, right associativity).

Definition emit (e : Event) : M unit :=
  fun w => (Return tt, {| db := db w; trace := e :: trace w |}).

Definition console (line : string) : M unit := emit (Console line).

(** [await api.rpc.chain.getBlock(h)]: the request is observable, a
    rejection is thrown. *)
Definition rpc_getBlock (api : ApiPromise) (h : string) : M SignedBlock :=
  emit (GetBlock h) ;;
  match getBlock api h with
  | Fetched b => ret b
  | Failed err => throw (Rejected err)
  end.

Definition repo_find (o : Repository.FindManyOptions) : M (list Tx) :=
  fun w =>
    match Repository.find o (db w) with
    | Some (Fetched rows) => (Return rows, w)
    | Some (Failed err) => (Throw (Rejected err), w)
    | None => (Throw (Unfollowed "find"), w)
    end.

Definition repo_findOne (c : Repository.FindConditions) : M (option Tx) :=
  fun w => (Return (Repository.findOne c (db w)), w).

Definition repo_save (tx : Tx) : M unit :=
  fun w => (Return tt, {| db := Repository.save tx (db w); trace := Save tx :: trace w |}).

(** [forEach] with the variables the callback assigns threaded through. *)
Fixpoint forEach {A V} (callback : A -> V -> M V) (l : list A) (v : V) : M V :=
  match l with
  | [] => ret v
  | a :: rest => v' <- callback a v ;; forEach callback rest v'
  end.

(** [Promise.all (l.map (async ...))], the callbacks run in order. *)
Fixpoint mapM {A B} (callback : A -> M B) (l : list A) : M (list B) :=
  match l with
  | [] => ret []
  | a :: rest => b <- callback a ;; bs <- mapM callback rest ;; ret (b :: bs)
  end.

Definition eval {A} (m : M A) (w : World) : Outcome A := fst (m w).
Definition exec {A} (m : M A) (w : World) : World := snd (m w).

(** ** Pieces shared by the scans *)

(** [`${section}.${method}(${args.map((a) => a.toString()).join(", ")})`] *)
Definition call_line (ex : Extrinsic) : string :=
  section ex ++ "." ++ method ex ++ "(" ++ join ", " (map toString (args ex)) ++ ")".

Definition signer_line (ex : Extrinsic) : string :=
  "signer=" ++ toString (signer ex) ++ ", nonce=" ++ toString (nonce ex).

(** [args[0].toString()]: reading a property of [undefined] throws. *)
Definition first_arg_toString (a : list Codec) : M string :=
  match a with
  | a0 :: _ => ret (toString a0)
  | [] => throw (TypeError "Cannot read properties of undefined (reading 'toString')")
  end.

(** The native transfer: section "balances", method "transfer". *)
Definition is_transfer (ex : Extrinsic) : bool :=
  String.eqb (section ex) "balances" && String.eqb (method ex) "transfer".

(** The transfer-method-and-recipient test of the specification: a native
    transfer whose first argument reads as the target. *)
Definition transfer_to (target : string) (ex : Extrinsic) : bool :=
  is_transfer ex
  && match args ex with
     | a0 :: _ => String.eqb (toString a0) target
     | [] => false
     end.

(** A native transfer that carries no argument at all. *)
Definition lacks_recipient (ex : Extrinsic) : bool :=
  is_transfer ex
  && match args ex with
     | [] => true
     | _ :: _ => false
     end.

(** The pair of variables [netAmount], [extrinsicHash]. *)
Definition Vars : Type := (value * value)%type.

Definition unset : Vars := (undefined, undefined).

(** ** HTTP responses *)

(** One element of the array answered by the history endpoint: the entity,
    and what the later revision spreads over a copy of it. *)
Record Row : Type := {
  row_tx : Tx;
  glitch_fee : value;
  glitch_timestamp : value;
  eth_timestamp : option nat
}.

Inductive Body : Type :=
| Records (rows : list Row)
| Settlement (netAmount extrinsicHash : value)
| ErrorMessage (error : string).

Record Response : Type := { status : nat; body : Body }.

(** [response.json(b)]: the status is 200 unless set. *)
Definition json (b : Body) : Response := {| status := 200; body := b |}.

Definition status_json (code : nat) (b : Body) : Response :=
  {| status := code; body := b |}.

(** The text of a number inside a template string. *)
Definition show_nat (n : nat) : string := NilEmpty.string_of_uint (Nat.to_uint n).

(** Reading a property of the result of [findOne]. *)
Definition read {A} (tx : option Tx) (prop : string) (f : Tx -> A) : M A :=
  match tx with
  | Some t => ret (f t)
  | None => throw (TypeError ("Cannot read properties of undefined (reading '" ++ prop ++ "')"))
  end.

(** ** GET /api/transactionInfo/:eth_tx

    The handler is the same text in both revisions, except that the later
    one also prints [meta] of a signed extrinsic; [withMeta] tells them
    apart. *)

Definition transactionInfo_callback (withMeta : bool) (ex : Extrinsic) (v : Vars) : M Vars :=
  console (call_line ex) ;;
  let x := map toString (args ex) in
  let v' := (at_ x 1, str (toHex (hash ex))) in
  (if isSigned ex
   then (if withMeta then console (meta ex) else ret tt) ;; console (signer_line ex)
   else ret tt) ;;
  ret v'.

Definition by_tx_eth_hash (eth_tx : string) : Repository.FindConditions :=
  {| Repository.where_from_eth_address := None;
     Repository.where_to_glitch_address := None;
     Repository.where_tx_eth_hash := Some eth_tx |}.

Definition transactionInfo_handler (withMeta : bool) (api : ApiPromise) (eth_tx : string)
  : M Response :=
  console ("Getting information from eth transaction with id " ++ eth_tx) ;;
  tx <- repo_findOne (by_tx_eth_hash eth_tx) ;;
  e <- read tx "extrinsic_hash" extrinsic_hash ;;
  enriched <- (if truthy e
               then n <- read tx "net_amount" net_amount ;; ret (truthy n)
               else ret false) ;;
  if enriched : bool
  then
    console "The information is already in the database." ;;
    n <- read tx "net_amount" net_amount ;;
    e <- read tx "extrinsic_hash" extrinsic_hash ;;
    ret (json (Settlement n e))
  else
    match tx with
    | None =>
        ret (status_json 400 (ErrorMessage ("No transaction found with id " ++ eth_tx)))
    | Some tx =>
        fetched <-
          try_catch
            (console ("Asking the node for block information: " ++ tx_glitch_hash tx) ;;
             b <- rpc_getBlock api (tx_glitch_hash tx) ;;
             ret (inl b))
            (fun error =>
               console (render error) ;;
               ret (inr (status_json 400
                           (ErrorMessage ("Error getting information from the block: "
                                            ++ render error))))) ;;
        match fetched with
        | inr answer => ret answer
        | inl signedBlock =>
            v <- forEach (transactionInfo_callback withMeta)
                         (extrinsics (block signedBlock)) unset ;;
            let netAmount := fst v in
            let extrinsicHash := snd v in
            repo_save (assign tx netAmount extrinsicHash) ;;
            ret (json (Settlement netAmount extrinsicHash))
        end
    end.

Definition by_wallet (wallet : string) : list Repository.FindConditions :=
  [ {| Repository.where_from_eth_address := Some wallet;
       Repository.where_to_glitch_address := None;
       Repository.where_tx_eth_hash := None |};
    {| Repository.where_from_eth_address := None;
       Repository.where_to_glitch_address := Some wallet;
       Repository.where_tx_eth_hash := None |} ].

Definition plain_row (tx : Tx) : Row :=
  {| row_tx := tx; glitch_fee := undefined; glitch_timestamp := undefined;
     eth_timestamp := None |}.

(** ** src/api/src/app.ts *)

Module App.

(** The callback of [signedBlock.block.extrinsics.forEach] in
    [getGlitchInfo]. *)
Definition getGlitchInfo_callback (toGlitchAddress : string)
    (ex : Extrinsic) (v : Vars) : M Vars :=
  console (call_line ex) ;;
  v' <- (if String.eqb (section ex) "balances" && String.eqb (method ex) "transfer"
         then
           a0 <- first_arg_toString (args ex) ;;
           if String.eqb a0 toGlitchAddress
           then
             let x := map toString (args ex) in
             ret (at_ x 1, str (toHex (hash ex)))
           else ret v
         else ret v) ;;
  (if isSigned ex then console (signer_line ex) else ret tt) ;;
  ret v'.

(** The scan of a fetched block. *)
Definition getGlitchInfo_scan (toGlitchAddress : string) (b : SignedBlock) : M Vars :=
  forEach (getGlitchInfo_callback toGlitchAddress) (extrinsics (block b)) unset.

Definition getGlitchInfo (api : ApiPromise) (glitchHash toGlitchAddress : string) : M Vars :=
  signedBlock <-
    try_catch
      (console ("Asking the node for block information: " ++ glitchHash) ;;
       b <- rpc_getBlock api glitchHash ;;
       ret (Some b))
      (fun error => console (render error) ;; ret None) ;;
  match signedBlock with
  | None => throw (TypeError "Cannot read properties of undefined (reading 'block')")
  | Some b => getGlitchInfo_scan toGlitchAddress b
  end.

(** The callback of [txs.map].  The promise of [getGlitchInfo] is not
    awaited, and the object the callback returns is the one the enrichment
    assigns to: which values of the two fields the answer shows depends on
    whether the promise settles before the answer is written, and so does
    the order of the saves.  Here the enrichment of a record is run when its
    callback is, in table order, and the callback returns the entity as
    loaded; properties of the answer are stated for what does not depend on
    that order. *)
Definition transactionHistory_callback (api : ApiPromise) (tx : Tx) : M Tx :=
  (if truthy (extrinsic_hash tx) && truthy (net_amount tx)
   then
     console ("Net amount and extrinsic hash of transaction " ++ show_nat (id tx)
                ++ " already exists in the database.")
   else
     try_catch
       (glitchInfo <- getGlitchInfo api (tx_glitch_hash tx) (to_glitch_address tx) ;;
        repo_save (assign tx (fst glitchInfo) (snd glitchInfo)))
       (fun error =>
          console ("Net amount and extrinsic hash of transaction " ++ show_nat (id tx)
                     ++ " already exists in the database.") ;;
          console (render error))) ;;
  ret tx.

Definition transactionHistory (api : ApiPromise) (wallet : string) : M Response :=
  console ("Obtaining the transaction history of address " ++ wallet) ;;
  txs <- repo_find {| Repository.take := None; Repository.skip := None;
                      Repository.where_ := by_wallet wallet |} ;;
  console (show_nat (length txs) ++ " transactions was found!") ;;
  txsWithInfo <- mapM (transactionHistory_callback api) txs ;;
  ret (json (Records (map plain_row txsWithInfo))).

Definition transactionInfo : ApiPromise -> string -> M Response :=
  transactionInfo_handler false.

End App.

(** ** ./glitch *)

(** What [getGlitchInfo] of the later revision resolves to. *)
Record GlitchInfo : Type := {
  netAmount : value;
  extrinsicHash : value;
  glitchFee : value;
  timestamp : value
}.

(** The import [getGlitchInfo] of [./glitch], as the handler sees it: called
    with the entity and the connection, it resolves or rejects, and leaves
    events behind (most recent first).  It has no access to the table. *)
Definition GlitchModule : Type := Tx -> ApiPromise -> Outcome GlitchInfo * list Event.

Definition call_glitch (getGlitchInfo : GlitchModule) (tx : Tx) (api : ApiPromise)
  : M GlitchInfo :=
  fun w =>
    let (answer, events) := getGlitchInfo tx api in
    (answer, {| db := db w; trace := events ++ trace w |}).

Module Glitch.

Definition observability (ex : Extrinsic) : list Event :=
  if isSigned ex then [Console (signer_line ex); Console (call_line ex)]
  else [Console (call_line ex)].

(** Modelled from the spec: [getGlitchInfo] of [./glitch], which the later
    revision imports and which is not among the source files.  Section 4.2:
    for a record lacking [net_amount] or [extrinsic_hash], fetch the block
    at [tx_glitch_hash] and run the Matcher with [to_glitch_address] as
    target; section 4.1: the first Operation that satisfies the predicate
    gives its second argument and its hash, both are absent when none does,
    and every Operation is reported; a failed fetch is an error of the
    fetch.  Section 8: a record that has both fields is not fetched again;
    its stored values are answered.  The fee and the timestamp are what the
    node reports for the block. *)
Definition getGlitchInfo : GlitchModule :=
  fun tx api =>
    let h := tx_glitch_hash tx in
    if truthy (extrinsic_hash tx) && truthy (net_amount tx)
    then
      (Return {| netAmount := net_amount tx;
                 extrinsicHash := extrinsic_hash tx;
                 glitchFee := feeAt api h;
                 timestamp := timestampAt api h |},
       [])
    else
      match getBlock api h with
      | Failed err => (Throw (Rejected err), [GetBlock h])
      | Fetched b =>
          let ops := extrinsics (block b) in
          let found := List.find (transfer_to (to_glitch_address tx)) ops in
          (Return {| netAmount := match found with
                                  | Some ex => at_ (map toString (args ex)) 1
                                  | None => undefined
                                  end;
                     extrinsicHash := match found with
                                      | Some ex => str (toHex (hash ex))
                                      | None => undefined
                                      end;
                     glitchFee := feeAt api h;
                     timestamp := timestampAt api h |},
           rev (flat_map (fun ex => rev (observability ex)) ops) ++ [GetBlock h])
      end.

End Glitch.

(** ** src/unnamed/part_000 *)

Module Part000.

(** A parameter of [request.query] as Express hands it over: a text, or,
    for a repeated or bracketed parameter, an array or object, which is
    always truthy and reads as its rendering. *)
Inductive QueryValue : Type :=
| QText (text : string)
| QNested (rendering : string).

(** [request.query]: the handler only casts [page] and [limit], so they
    reach the console and the repository as received. *)
Record Query : Type := {
  query_page : option QueryValue;
  query_limit : option QueryValue
}.

(** The value of [request.query.x || b]: what was received, or the number
    [b]. *)
Inductive Param : Type :=
| Received (v : QueryValue)
| Default (b : nat).

(** [a || b]: a missing parameter and the empty text are falsy; every other
    text is truthy, also the text that reads 0. *)
Definition or_default (a : option QueryValue) (b : nat) : Param :=
  match a with
  | None => Default b
  | Some (QText EmptyString) => Default b
  | Some v => Received v
  end.

(** [`${x}`] *)
Definition rendering_of (x : Param) : string :=
  match x with
  | Received (QText text) => text
  | Received (QNested rendering) => rendering
  | Default b => show_nat b
  end.

(** The number [x] is read as, by [*] and by the repository. *)
Definition number_of (x : Param) : Num :=
  match x with
  | Default b => Finite b
  | Received v => to_number (rendering_of x)
  end.

Definition settled {A} (f : Fetch A) : M A :=
  match f with
  | Fetched a => ret a
  | Failed err => throw (Rejected err)
  end.

Definition with_glitch (response : Row) (fee stamp : value) : Row :=
  {| row_tx := row_tx response; glitch_fee := fee; glitch_timestamp := stamp;
     eth_timestamp := eth_timestamp response |}.

Definition with_eth (response : Row) (stamp : nat) : Row :=
  {| row_tx := row_tx response; glitch_fee := glitch_fee response;
     glitch_timestamp := glitch_timestamp response; eth_timestamp := Some stamp |}.

Definition await {A} (e : Event) (f : Fetch A) : M A :=
  emit e ;;
  match f with
  | Fetched a => ret a
  | Failed err => throw (Rejected err)
  end.

(** The callback of [txs.map].  The save is not awaited: its line
    "Transaction updated" is printed when the save has settled, which is
    after the callback has gone on and sent the request of the Ethereum
    transaction; [saving] carries that pending line over. *)
Definition transactionHistory_callback (getGlitchInfo : GlitchModule)
    (api : ApiPromise) (provider : JsonRpcProvider) (tx : Tx) : M Row :=
  let response := plain_row tx in
  answered <-
    try_catch
      (glitchInfo <- call_glitch getGlitchInfo tx api ;;
       saving <- (if negb (truthy (extrinsic_hash tx)) && negb (truthy (net_amount tx))
                  then
                    repo_save (assign tx (netAmount glitchInfo) (extrinsicHash glitchInfo)) ;;
                    ret true
                  else ret false) ;;
       ret (with_glitch response (glitchFee glitchInfo) (timestamp glitchInfo), saving))
      (fun error =>
         console ("No information could be obtained from the node for this transaction.: "
                    ++ show_nat (id tx)) ;;
         console ("Error: " ++ render error) ;;
         console (render error) ;;
         ret (response, false)) ;;
  let response := fst answered in
  let saving : bool := snd answered in
  response <-
    try_catch
      (emit (GetTransaction (tx_eth_hash tx)) ;;
       (if saving
        then console "Transaction updated with extrinsic_hash and net_amount!1"
        else ret tt) ;;
       eth_tx <- settled (getTransaction provider (tx_eth_hash tx)) ;;
       number <- match eth_tx with
                 | Some t => ret (blockNumber t)
                 | None => throw (TypeError
                     "Cannot read properties of null (reading 'blockNumber')")
                 end ;;
       block <- await (GetEthBlock number) (getEthBlock provider number) ;;
       ret (with_eth response (block_timestamp block)))
      (fun error =>
         console ("No information could be obtained from the eth hash: " ++ tx_eth_hash tx) ;;
         console ("Error: " ++ render error) ;;
         ret response) ;;
  ret response.

Definition transactionHistory (getGlitchInfo : GlitchModule) (api : ApiPromise)
    (provider : JsonRpcProvider) (wallet : string) (query : Query) : M Response :=
  console ("Obtaining the transaction history of address " ++ wallet) ;;
  let page := or_default (query_page query) 0 in
  let limit := or_default (query_limit query) 10 in
  console ("Searching " ++ rendering_of limit ++ " transaction on page "
             ++ rendering_of page ++ ".") ;;
  txs <- repo_find {| Repository.take := Some (number_of limit);
                      Repository.skip := Some (times (number_of limit) (number_of page));
                      Repository.where_ := by_wallet wallet |} ;;
  console (show_nat (length txs) ++ " transactions was found!") ;;
  txsWithInfo <- mapM (transactionHistory_callback getGlitchInfo api provider) txs ;;
  ret (json (Records txsWithInfo)).

Definition transactionInfo : ApiPromise -> string -> M Response :=
  transactionInfo_handler true.

End Part000.

(** ** Vocabulary of the properties *)

(** What an Operation yields when a scan takes it: its second rendered
    argument and its hex hash. *)
Definition settlement_of (ex : Extrinsic) : Vars :=
  (at_ (map toString (args ex)) 1, str (toHex (hash ex))).

(** The test both handlers apply to a loaded record,
    [tx.extrinsic_hash && tx.net_amount]: both fields are non-empty
    strings. *)
Definition both_set (tx : Tx) : bool :=
  truthy (extrinsic_hash tx) && truthy (net_amount tx).

(** Exactly one of the two fields is set. *)
Definition one_set (tx : Tx) : bool :=
  xorb (truthy (net_amount tx)) (truthy (extrinsic_hash tx)).


(** A computation leaves a property of the table standing. *)
Definition keeps {A} (P : list Tx -> Prop) (m : M A) : Prop :=
  forall w, P (db w) -> P (db (exec m w)).

(** Primary keys are unique. *)
Definition unique_ids (rows : list Tx) : Prop := NoDup (map id rows).

(** A trace that continues another one. *)
Definition extends (t t0 : list Event) : Prop := exists later, t = later ++ t0.

(** What the variables of [getGlitchInfo] hold after one round of its
    callback, and after the rounds of a list of Operations. *)
Definition after_round (target : string) (v : Vars) (ex : Extrinsic) : Vars :=
  if transfer_to target ex then settlement_of ex else v.

(** What the variables of the transactionInfo handler hold after its
    unconditional rounds. *)
Definition after_all (ops : list Extrinsic) (v : Vars) : Vars :=
  fold_left (fun _ ex => settlement_of ex) ops v.



(** The requests the server answers, in both revisions. *)
Inductive Request : Type :=
| GetHistoryApp (wallet : string)
| GetInfoApp (eth_tx : string)
| GetHistory (wallet : string) (query : Part000.Query)
| GetInfo (eth_tx : string).





(** ** Sample data *)

Module Sample.

Definition op (s m : string) (a : list string) (h : string) : Extrinsic :=
  {| isSigned := false; meta := ""; args := map Build_Codec a; method := m;
     section := s; hash := Build_Hash h;
     signer := Build_Codec ""; nonce := Build_Codec "" |}.

Definition remark : Extrinsic := op "system" "remark" [] "0x01".
Definition transfer100 : Extrinsic := op "balances" "transfer" ["0xAA"; "100"] "0x02".
Definition transfer999 : Extrinsic := op "balances" "transfer" ["0xAA"; "999"] "0x03".
Definition transfer_bare : Extrinsic := op "balances" "transfer" [] "0x04".
Definition transfer_short : Extrinsic := op "balances" "transfer" ["0xAA"] "0x05".
Definition set_time : Extrinsic := op "timestamp" "set" ["1667300000000"] "0x06".

Definition blockOf (ops : list Extrinsic) : SignedBlock :=
  {| block := {| extrinsics := ops |} |}.

(** The block of the scenario of the specification, at hash "0xb1"; a
    block whose only transfer has no argument at "0xb2"; one whose only
    transfer has a single argument at "0xb3"; a block holding only the
    timestamp inherent at "0xb4"; an empty block at "0xb5". *)
Definition api : ApiPromise :=
  {| getBlock := fun h =>
       if String.eqb h "0xb1" then Fetched (blockOf [remark; transfer100; transfer999])
       else if String.eqb h "0xb2" then Fetched (blockOf [transfer_bare])
       else if String.eqb h "0xb3" then Fetched (blockOf [transfer_short])
       else if String.eqb h "0xb4" then Fetched (blockOf [set_time])
       else if String.eqb h "0xb5" then Fetched (blockOf [])
       else Failed "unknown block";
     feeAt := fun _ => str "125";
     timestampAt := fun _ => str "1667300000000" |}.


Definition provider : JsonRpcProvider :=
  {| getTransaction := fun _ => Fetched (Some {| blockNumber := 7 |});
     getEthBlock := fun _ => Fetched {| block_timestamp := 1667 |} |}.

Definition record (i : nat) (eth glitch : string) (n e : value) : Tx :=
  {| id := i; from_eth_address := "0xE1"; to_glitch_address := "0xAA";
     tx_eth_hash := eth; tx_glitch_hash := glitch;
     net_amount := n; extrinsic_hash := e |}.

Definition world (rows : list Tx) : World := {| db := rows; trace := [] |}.


End Sample.

(** ** GET /api/validators (src/unnamed/part_000) *)

Module Validators.

(** What [toHuman()] gives: an array, or any other JSON value. *)
Inductive AnyJson : Type :=
| JsonArray (items : list string)
| JsonOther (text : string).

Record Human : Type := { toHuman : AnyJson }.

(** [api.query]: the three state queries of the handler, each resolved or
    rejected by the node. *)
Record ApiQuery : Type := {
  staking_currentEra : Fetch Codec;
  staking_erasTotalStake : string -> Fetch Codec;
  session_validators : Fetch Human
}.

(** The object given to [response.json]; [stakersCount] is declared but
    assigned only under [Array.isArray]. *)
Record Answer : Type := {
  currentEra : string;
  stakersCount : option nat;
  totalStake : string
}.

Record ValidatorsResponse : Type := { code : nat; answer : Answer }.

Definition awaited {A} (f : Fetch A) : M A :=
  match f with
  | Fetched a => ret a
  | Failed err => throw (Rejected err)
  end.

Definition validators (query : ApiQuery) : M ValidatorsResponse :=
  era <- awaited (staking_currentEra query) ;;
  let currentEra := toString era in
  stake <- awaited (staking_erasTotalStake query currentEra) ;;
  let totalStake := toString stake in
  validators <- awaited (session_validators query) ;;
  let stakers := toHuman validators in
  let stakersCount := match stakers with
                      | JsonArray items => Some (length items)
                      | JsonOther _ => None
                      end in
  ret {| code := 200;
         answer := {| currentEra := currentEra;
                      stakersCount := stakersCount;
                      totalStake := totalStake |} |}.

End Validators.

(** ** Vocabulary of the further properties *)

(** The console events of one round of a scan, in the order they are
    printed: the call, then the signer of a signed extrinsic. *)
Definition round_lines (ex : Extrinsic) : list Event :=
  Console (call_line ex)
  :: (if isSigned ex then [Console (signer_line ex)] else []).

(** Two extrinsics that are the same call: they may differ in what is only
    printed ([isSigned], [meta], [signer], [nonce]). *)
Definition same_call (ex ex' : Extrinsic) : Prop :=
  args ex = args ex' /\ method ex = method ex' /\ section ex = section ex'
  /\ hash ex = hash ex'.

(** What identifies a record and correlates it across the chains:
    everything but the two settlement fields. *)
Definition keys_of (r : Tx) : nat * string * string * string * string :=
  (id r, from_eth_address r, to_glitch_address r, tx_eth_hash r, tx_glitch_hash r).

(** The wallet is a counterparty of the record. *)
Definition concerns (wallet : string) (r : Tx) : bool :=
  String.eqb (from_eth_address r) wallet || String.eqb (to_glitch_address r) wallet.

(** The element the later history handler answers for a record: a copy of
    the entity as loaded, the fee and timestamp of the helper when it
    resolves, and the timestamp of the Ethereum block when both calls of the
    provider resolve and the transaction is known. *)
Definition answered_row (getGlitchInfo : GlitchModule) (api : ApiPromise)
    (provider : JsonRpcProvider) (tx : Tx) : Row :=
  {| row_tx := tx;
     glitch_fee := match fst (getGlitchInfo tx api) with
                   | Return info => glitchFee info
                   | Throw _ => undefined
                   end;
     glitch_timestamp := match fst (getGlitchInfo tx api) with
                         | Return info => timestamp info
                         | Throw _ => undefined
                         end;
     eth_timestamp := match getTransaction provider (tx_eth_hash tx) with
                      | Fetched (Some t) =>
                          match getEthBlock provider (blockNumber t) with
                          | Fetched found => Some (block_timestamp found)
                          | Failed _ => None
                          end
                      | _ => None
                      end |}.



(** The options the later history handler gives to [find]. *)
Definition options_of (wallet : string) (query : Part000.Query)
  : Repository.FindManyOptions :=
  {| Repository.take := Some (Part000.number_of
                                (Part000.or_default (Part000.query_limit query) 10));
     Repository.skip := Some (times (Part000.number_of
                                       (Part000.or_default (Part000.query_limit query) 10))
                                    (Part000.number_of
                                       (Part000.or_default (Part000.query_page query) 0)));
     Repository.where_ := by_wallet wallet |}.



(** The console events of one round of the transactionInfo scan, in the
    order they are printed; the later revision ([withMeta]) also prints
    [meta] of a signed extrinsic. *)
Definition info_lines (withMeta : bool) (ex : Extrinsic) : list Event :=
  Console (call_line ex)
  :: (if isSigned ex
      then (if withMeta then [Console (meta ex)] else []) ++ [Console (signer_line ex)]
      else []).

(** *** Runs that overlap

    A handler reads the table once, when it loads ([find], [findOne]), and
    what it will save is decided by what it loaded and by the node; the
    saves themselves settle later, while other requests may load and save.
    [saves_of] is what a run that loads [rows] will save. *)

Definition info_saves (api : ApiPromise) (h : string) (rows : list Tx) : list Tx :=
  match Repository.findOne (by_tx_eth_hash h) rows with
  | Some tx =>
      if both_set tx then []
      else match getBlock api (tx_glitch_hash tx) with
           | Fetched b =>
               [assign tx (fst (after_all (extrinsics (block b)) unset))
                          (snd (after_all (extrinsics (block b)) unset))]
           | Failed _ => []
           end
  | None => []
  end.

Definition app_saves (api : ApiPromise) (tx : Tx) : list Tx :=
  if both_set tx then []
  else match getBlock api (tx_glitch_hash tx) with
       | Fetched b =>
           if existsb lacks_recipient (extrinsics (block b)) then []
           else [assign tx
                   (fst (fold_left (after_round (to_glitch_address tx))
                           (extrinsics (block b)) unset))
                   (snd (fold_left (after_round (to_glitch_address tx))
                           (extrinsics (block b)) unset))]
       | Failed _ => []
       end.

Definition part_saves (getGlitchInfo : GlitchModule) (api : ApiPromise) (tx : Tx)
  : list Tx :=
  match fst (getGlitchInfo tx api) with
  | Return info =>
      if negb (truthy (extrinsic_hash tx)) && negb (truthy (net_amount tx))
      then [assign tx (netAmount info) (extrinsicHash info)]
      else []
  | Throw _ => []
  end.

Definition saves_of (getGlitchInfo : GlitchModule) (api : ApiPromise)
    (request : Request) (rows : list Tx) : list Tx :=
  match request with
  | GetHistoryApp wallet => flat_map (app_saves api) (filter (concerns wallet) rows)
  | GetInfoApp h => info_saves api h rows
  | GetHistory wallet query =>
      match Repository.find (options_of wallet query) rows with
      | Some (Fetched txs) => flat_map (part_saves getGlitchInfo api) txs
      | _ => []
      end
  | GetInfo h => info_saves api h rows
  end.



(** The table, and the saves that runs have decided on and that have not
    settled yet. *)
Record Server : Type := {
  table : list Tx;
  in_flight : list Tx
}.

(** A request arrives and loads; or the save at some position among those
    in flight settles. *)
Inductive Moment : Type :=
| Arrives (request : Request)
| Settles (position : nat).

Definition moment (getGlitchInfo : GlitchModule) (api : ApiPromise)
    (m : Moment) (s : Server) : Server :=
  match m with
  | Arrives request =>
      {| table := table s;
         in_flight := in_flight s ++ saves_of getGlitchInfo api request (table s) |}
  | Settles position =>
      match nth_error (in_flight s) position with
      | Some tx =>
          {| table := Repository.save tx (table s);
             in_flight := firstn position (in_flight s)
                          ++ skipn (S position) (in_flight s) |}
      | None => s
      end
  end.

(** The server after a sequence of moments, in any order. *)
Definition overlapped (getGlitchInfo : GlitchModule) (api : ApiPromise)
    (moments : list Moment) (s : Server) : Server :=
  fold_left (fun s m => moment getGlitchInfo api m s) moments s.


(** A node whose block ends with an Operation that is not the transfer. *)
Definition overlap_api : ApiPromise :=
  {| getBlock := fun _ =>
       Fetched (Sample.blockOf [Sample.transfer100;
                                Sample.op "system" "remarkWithEvent" ["memo"; "7"] "0x07"]);
     feeAt := fun _ => undefined;
     timestampAt := fun _ => undefined |}.

(** A sample node state for the validators endpoint. *)
Definition sample_query : Validators.ApiQuery :=
  {| Validators.staking_currentEra := Fetched (Build_Codec "412");
     Validators.staking_erasTotalStake := fun era =>
       if String.eqb era "412" then Fetched (Build_Codec "9000") else Failed "unknown era";
     Validators.session_validators :=
       Fetched (Validators.Build_Human (Validators.JsonArray ["5Gr"; "5FH"; "5Dt"])) |}.

(** ** The scan of [getGlitchInfo] *)

Lemma callback_round target ex v w :
  lacks_recipient ex = false ->
  exists w', App.getGlitchInfo_callback target ex v w = (Return (after_round target v ex), w')
             /\ db w' = db w.
Proof.
  unfold lacks_recipient, after_round, transfer_to, is_transfer,
    App.getGlitchInfo_callback, settlement_of.
  intros Hrec.
  destruct (String.eqb (section ex) "balances" && String.eqb (method ex) "transfer") eqn:Ht;
    simpl in *.
  - destruct (args ex) as [| a0 rest] eqn:Ha; [discriminate |].
    unfold bind, console, emit, first_arg_toString, ret; simpl.
    destruct (String.eqb (toString a0) target); destruct (isSigned ex); simpl;
      eexists; split; reflexivity.
  - unfold bind, console, emit, ret; simpl.
    destruct (isSigned ex); simpl; eexists; split; reflexivity.
Qed.

Lemma callback_bare target ex v w :
  lacks_recipient ex = true ->
  exists msg w', App.getGlitchInfo_callback target ex v w = (Throw (TypeError msg), w')
                 /\ db w' = db w.
Proof.
  unfold lacks_recipient, is_transfer, App.getGlitchInfo_callback.
  intros Hrec. apply andb_prop in Hrec as [Ht Ha]. rewrite Ht.
  destruct (args ex); [| discriminate].
  unfold bind, console, emit, first_arg_toString, throw; simpl.
  eexists; eexists; split; reflexivity.
Qed.

Lemma scan_rounds target ops : forall v w,
  (forall e, In e ops -> lacks_recipient e = false) ->
  exists w', forEach (App.getGlitchInfo_callback target) ops v w
             = (Return (fold_left (after_round target) ops v), w')
             /\ db w' = db w.
Proof.
  induction ops as [| ex ops IH]; intros v w Hok; simpl.
  - exists w. split; reflexivity.
  - destruct (callback_round target ex v w) as (w1 & E1 & D1).
    { apply Hok. now left. }
    destruct (IH (after_round target v ex) w1) as (w2 & E2 & D2).
    { intros e He. apply Hok. now right. }
    exists w2. unfold bind. rewrite E1, E2. split; [reflexivity | congruence].
Qed.

Lemma rounds_without_match target ops : forall v,
  (forall e, In e ops -> transfer_to target e = false) ->
  fold_left (after_round target) ops v = v.
Proof.
  induction ops as [| ex ops IH]; intros v Hno; simpl; [reflexivity |].
  unfold after_round at 2. rewrite (Hno ex) by now left.
  apply IH. intros e He. apply Hno. now right.
Qed.

Lemma rounds_last_match target pre ex post v :
  transfer_to target ex = true ->
  (forall e, In e post -> transfer_to target e = false) ->
  fold_left (after_round target) (pre ++ ex :: post) v = settlement_of ex.
Proof.
  intros Hm Hpost. rewrite fold_left_app. simpl.
  unfold after_round at 2. rewrite Hm.
  now apply rounds_without_match.
Qed.

(** Every outcome of the rounds is the initial pair or what some matching
    Operation yields. *)
Lemma rounds_outcome target ops : forall v,
  fold_left (after_round target) ops v = v
  \/ exists ex, In ex ops /\ transfer_to target ex = true
               /\ fold_left (after_round target) ops v = settlement_of ex.
Proof.
  induction ops as [| ex ops IH]; intros v; simpl; [now left |].
  destruct (IH (after_round target v ex)) as [E | (e & He & Hm & E)].
  - rewrite E. unfold after_round.
    destruct (transfer_to target ex) eqn:Hm; [right | now left].
    exists ex. repeat split; auto.
  - right. exists e. repeat split; auto.
Qed.

(** [getGlitchInfo] on a block the node returns is the scan of that block. *)
Lemma getGlitchInfo_fetched api h target b w :
  getBlock api h = Fetched b ->
  exists w1, db w1 = db w
    /\ App.getGlitchInfo api h target w = App.getGlitchInfo_scan target b w1.
Proof.
  intros Hb. unfold App.getGlitchInfo, try_catch, bind, rpc_getBlock, console, emit, ret.
  simpl. rewrite Hb. simpl. eexists. split; [| reflexivity]. reflexivity.
Qed.

(** C1 (as stated, refuted).  In the block of the scenario of the
    specification the first Operation that satisfies the predicate for
    "0xAA" is the transfer of 100, yet [getGlitchInfo] answers the amount
    and the hash of the transfer of 999, which comes later. *)
Lemma getGlitchInfo_answers_later_match :
  List.find (transfer_to "0xAA") (extrinsics (block (Sample.blockOf
      [Sample.remark; Sample.transfer100; Sample.transfer999])))
    = Some Sample.transfer100
  /\ eval (App.getGlitchInfo Sample.api "0xb1" "0xAA") (Sample.world [])
     = Return (str "999", str "0x03")
  /\ eval (App.getGlitchInfo Sample.api "0xb1" "0xAA") (Sample.world [])
     <> Return (settlement_of Sample.transfer100).
Proof.
  split; [reflexivity |]. split; [reflexivity |].
  vm_compute. discriminate.
Qed.

(** C1 (amended).  For every block the node returns in which each native
    transfer carries at least one argument, and every target address,
    [getGlitchInfo] answers the second rendered argument and the hex hash of
    the LAST Operation, in block order, that is a "balances"."transfer"
    whose first rendered argument equals the target: every later assignment
    of the scan overwrites the earlier one. *)
Theorem getGlitchInfo_last_match_wins :
  forall api h target b pre ex post w,
    getBlock api h = Fetched b ->
    extrinsics (block b) = pre ++ ex :: post ->
    transfer_to target ex = true ->
    (forall e, In e post -> transfer_to target e = false) ->
    (forall e, In e (extrinsics (block b)) -> lacks_recipient e = false) ->
    eval (App.getGlitchInfo api h target) w = Return (settlement_of ex).
Proof.
  intros api h target b pre ex post w Hb Hops Hm Hpost Hok.
  destruct (getGlitchInfo_fetched api h target b w Hb) as (w1 & _ & E).
  unfold eval. rewrite E. unfold App.getGlitchInfo_scan.
  destruct (scan_rounds target (extrinsics (block b)) unset w1 Hok) as (w2 & E2 & _).
  rewrite E2. simpl. rewrite Hops.
  now rewrite rounds_last_match.
Qed.

Lemma getGlitchInfo_last_match_wins_witness :
  eval (App.getGlitchInfo Sample.api "0xb1" "0xAA") (Sample.world [])
  = Return (settlement_of Sample.transfer999).
Proof.
  apply (getGlitchInfo_last_match_wins Sample.api "0xb1" "0xAA"
           (Sample.blockOf [Sample.remark; Sample.transfer100; Sample.transfer999])
           [Sample.remark; Sample.transfer100] Sample.transfer999 []).
  - reflexivity.
  - reflexivity.
  - reflexivity.
  - intros e [].
  - intros e He. simpl in He.
    destruct He as [<- | [<- | [<- | []]]]; reflexivity.
Defined.

(** C3 (as stated, refuted).  A block whose transfer has no argument makes
    the scan throw at [args[0].toString()], and a block whose matching
    transfer has a single argument makes it answer a hash without an
    amount: neither a full pair nor both fields absent. *)
Lemma getGlitchInfo_throws_on_bare_transfer :
  eval (App.getGlitchInfo Sample.api "0xb2" "0xAA") (Sample.world [])
  = Throw (TypeError "Cannot read properties of undefined (reading 'toString')")
  /\ eval (App.getGlitchInfo Sample.api "0xb3" "0xAA") (Sample.world [])
     = Return (undefined, str "0x05").
Proof. split; reflexivity. Qed.

(** C3 (amended).  For every block the node returns in which each native
    transfer carries at least one argument, [getGlitchInfo] returns
    normally, and what it returns is either both fields absent or the hex
    hash of an Operation that satisfies the predicate together with that
    Operation's second rendered argument (absent when it has only one); when
    each native transfer carries at least two arguments the outcome is both
    fields absent or both fields present. *)
Theorem getGlitchInfo_returns :
  forall api h target b w,
    getBlock api h = Fetched b ->
    (forall e, In e (extrinsics (block b)) -> lacks_recipient e = false) ->
    exists v,
      eval (App.getGlitchInfo api h target) w = Return v
      /\ (v = unset
          \/ exists ex, In ex (extrinsics (block b)) /\ transfer_to target ex = true
                        /\ v = settlement_of ex)
      /\ ((forall e, In e (extrinsics (block b)) -> is_transfer e = true ->
                     2 <= length (args e)) ->
          present (fst v) = present (snd v)).
Proof.
  intros api h target b w Hb Hok.
  destruct (getGlitchInfo_fetched api h target b w Hb) as (w1 & _ & E).
  destruct (scan_rounds target (extrinsics (block b)) unset w1 Hok) as (w2 & E2 & _).
  exists (fold_left (after_round target) (extrinsics (block b)) unset).
  split.
  { unfold eval. rewrite E. unfold App.getGlitchInfo_scan. now rewrite E2. }
  destruct (rounds_outcome target (extrinsics (block b)) unset) as [E3 | (ex & Hin & Hm & E3)];
    rewrite E3.
  - split; [now left |]. reflexivity.
  - split; [right; now exists ex |].
    intros Htwo.
    assert (Ht : is_transfer ex = true).
    { unfold transfer_to in Hm. now apply andb_prop in Hm as [Ht _]. }
    specialize (Htwo ex Hin Ht).
    unfold settlement_of, at_, fst, snd.
    destruct (nth_error (map toString (args ex)) 1) eqn:En; [reflexivity |].
    apply nth_error_None in En. rewrite length_map in En. lia.
Qed.

Lemma getGlitchInfo_returns_witness :
  exists v,
    eval (App.getGlitchInfo Sample.api "0xb1" "0xAA") (Sample.world []) = Return v
    /\ (v = unset
        \/ exists ex, In ex [Sample.remark; Sample.transfer100; Sample.transfer999]
                      /\ transfer_to "0xAA" ex = true /\ v = settlement_of ex)
    /\ ((forall e, In e [Sample.remark; Sample.transfer100; Sample.transfer999] ->
                   is_transfer e = true -> 2 <= length (args e)) ->
        present (fst v) = present (snd v)).
Proof.
  apply (getGlitchInfo_returns Sample.api "0xb1" "0xAA"
           (Sample.blockOf [Sample.remark; Sample.transfer100; Sample.transfer999])).
  - reflexivity.
  - intros e He. simpl in He.
    destruct He as [<- | [<- | [<- | []]]]; reflexivity.
Defined.

(** C7 (as stated, refuted).  In a block whose only Operation is a transfer
    without arguments no Operation satisfies the predicate for "0xAA", and
    [getGlitchInfo] throws instead of answering both fields absent. *)
Lemma getGlitchInfo_no_match_yet_throws :
  forallb (fun e => negb (transfer_to "0xAA" e)) [Sample.transfer_bare] = true
  /\ getBlock Sample.api "0xb2" = Fetched (Sample.blockOf [Sample.transfer_bare])
  /\ eval (App.getGlitchInfo Sample.api "0xb2" "0xAA") (Sample.world [])
     = Throw (TypeError "Cannot read properties of undefined (reading 'toString')").
Proof. repeat split. Qed.

(** C7 (amended).  For every block the node returns in which each native
    transfer carries at least one argument, and every target address: when no
    Operation of the block is a "balances"."transfer" whose first rendered
    argument equals the target, [getGlitchInfo] returns normally with both
    [netAmount] and [extrinsicHash] absent. *)
Theorem getGlitchInfo_no_match :
  forall api h target b w,
    getBlock api h = Fetched b ->
    (forall e, In e (extrinsics (block b)) -> lacks_recipient e = false) ->
    (forall e, In e (extrinsics (block b)) -> transfer_to target e = false) ->
    eval (App.getGlitchInfo api h target) w = Return (undefined, undefined).
Proof.
  intros api h target b w Hb Hok Hno.
  destruct (getGlitchInfo_fetched api h target b w Hb) as (w1 & _ & E).
  unfold eval. rewrite E. unfold App.getGlitchInfo_scan.
  destruct (scan_rounds target (extrinsics (block b)) unset w1 Hok) as (w2 & E2 & _).
  rewrite E2. simpl. now rewrite rounds_without_match.
Qed.

Lemma getGlitchInfo_no_match_witness :
  eval (App.getGlitchInfo Sample.api "0xb1" "0xBB") (Sample.world [])
  = Return (undefined, undefined).
Proof.
  apply (getGlitchInfo_no_match Sample.api "0xb1" "0xBB"
           (Sample.blockOf [Sample.remark; Sample.transfer100; Sample.transfer999])).
  - reflexivity.
  - intros e He. simpl in He.
    destruct He as [<- | [<- | [<- | []]]]; reflexivity.
  - intros e He. simpl in He.
    destruct He as [<- | [<- | [<- | []]]]; reflexivity.
Defined.

(** ** The transactionInfo handler, path by path *)

Lemma after_all_last pre ex v : after_all (pre ++ [ex]) v = settlement_of ex.
Proof. unfold after_all. now rewrite fold_left_app. Qed.

Lemma info_round withMeta ex v w :
  exists w', transactionInfo_callback withMeta ex v w = (Return (settlement_of ex), w')
             /\ db w' = db w.
Proof.
  unfold transactionInfo_callback, settlement_of, bind, console, emit, ret. simpl.
  destruct (isSigned ex); [destruct withMeta |]; simpl; eexists; split; reflexivity.
Qed.

Lemma info_rounds withMeta ops : forall v w,
  exists w', forEach (transactionInfo_callback withMeta) ops v w
             = (Return (after_all ops v), w')
             /\ db w' = db w.
Proof.
  induction ops as [| ex ops IH]; intros v w; simpl.
  - exists w. split; reflexivity.
  - destruct (info_round withMeta ex v w) as (w1 & E1 & D1).
    destruct (IH (settlement_of ex) w1) as (w2 & E2 & D2).
    exists w2. unfold bind. rewrite E1, E2. split; [reflexivity | congruence].
Qed.

Lemma findOne_none h rows :
  (forall r, In r rows -> tx_eth_hash r <> h) ->
  Repository.findOne (by_tx_eth_hash h) rows = None.
Proof.
  intros Hno. unfold Repository.findOne.
  destruct (List.find (Repository.satisfies (by_tx_eth_hash h)) rows) as [r |] eqn:E;
    [| reflexivity].
  apply find_some in E as [Hin Hs]. exfalso. apply (Hno r Hin).
  unfold Repository.satisfies, by_tx_eth_hash in Hs. simpl in Hs.
  now apply String.eqb_eq.
Qed.

Lemma findOne_some h rows tx :
  Repository.findOne (by_tx_eth_hash h) rows = Some tx ->
  In tx rows /\ tx_eth_hash tx = h.
Proof.
  unfold Repository.findOne. intros E. apply find_some in E as [Hin Hs].
  split; [assumption |].
  unfold Repository.satisfies, by_tx_eth_hash in Hs. simpl in Hs.
  now apply String.eqb_eq.
Qed.

(** No record: the handler throws at [tx.extrinsic_hash], before the test
    [!tx]. *)
Lemma info_missing withMeta api h w :
  Repository.findOne (by_tx_eth_hash h) (db w) = None ->
  eval (transactionInfo_handler withMeta api h) w
  = Throw (TypeError "Cannot read properties of undefined (reading 'extrinsic_hash')").
Proof.
  intros Hnone. unfold eval, transactionInfo_handler, bind, console, emit, repo_findOne.
  simpl. rewrite Hnone. reflexivity.
Qed.

(** A record with both fields set: the stored values are answered. *)
Lemma info_enriched withMeta api h w tx :
  Repository.findOne (by_tx_eth_hash h) (db w) = Some tx ->
  both_set tx = true ->
  transactionInfo_handler withMeta api h w
  = (Return (json (Settlement (net_amount tx) (extrinsic_hash tx))),
     {| db := db w;
        trace := Console "The information is already in the database."
                 :: Console ("Getting information from eth transaction with id " ++ h)
                 :: trace w |}).
Proof.
  intros Hfind Hboth. unfold both_set in Hboth. apply andb_prop in Hboth as [He Hn].
  unfold transactionInfo_handler, bind, console, emit, repo_findOne, read, ret.
  simpl. rewrite Hfind. simpl. rewrite He. simpl. rewrite Hn. reflexivity.
Qed.

(** A record that is not enriched, and a block the node returns: the
    unconditional rounds, one save, and the answer. *)
Lemma info_fetched withMeta api h w tx b :
  Repository.findOne (by_tx_eth_hash h) (db w) = Some tx ->
  both_set tx = false ->
  getBlock api (tx_glitch_hash tx) = Fetched b ->
  exists events,
    transactionInfo_handler withMeta api h w
    = (Return (json (Settlement (fst (after_all (extrinsics (block b)) unset))
                                (snd (after_all (extrinsics (block b)) unset)))),
       {| db := Repository.save
                  (assign tx (fst (after_all (extrinsics (block b)) unset))
                             (snd (after_all (extrinsics (block b)) unset))) (db w);
          trace := Save (assign tx (fst (after_all (extrinsics (block b)) unset))
                                   (snd (after_all (extrinsics (block b)) unset)))
                   :: events |}).
Proof.
  intros Hfind Hboth Hb. unfold both_set in Hboth.
  unfold transactionInfo_handler, bind, console, emit, repo_findOne, read, ret.
  simpl. rewrite Hfind. simpl.
  destruct (truthy (extrinsic_hash tx)); simpl in Hboth; [rewrite Hboth |];
    unfold try_catch, rpc_getBlock, bind, emit, ret; simpl; rewrite Hb; simpl;
    match goal with
    | |- context [forEach ?cb ?ops ?v ?w0] =>
        destruct (info_rounds withMeta ops v w0) as (w2 & E2 & D2)
    end;
    rewrite E2; unfold repo_save, bind, ret; simpl; rewrite D2; simpl;
    eexists; reflexivity.
Qed.

(** The node rejects the request: HTTP 400, nothing saved. *)
Lemma info_rejected withMeta api h w tx err :
  Repository.findOne (by_tx_eth_hash h) (db w) = Some tx ->
  both_set tx = false ->
  getBlock api (tx_glitch_hash tx) = Failed err ->
  eval (transactionInfo_handler withMeta api h) w
  = Return (status_json 400
              (ErrorMessage ("Error getting information from the block: " ++ err)))
  /\ db (exec (transactionInfo_handler withMeta api h) w) = db w.
Proof.
  intros Hfind Hboth Hb. unfold both_set in Hboth.
  unfold eval, exec, transactionInfo_handler, bind, console, emit, repo_findOne, read, ret.
  simpl. rewrite Hfind. simpl.
  destruct (truthy (extrinsic_hash tx)); simpl in Hboth;
    [rewrite Hboth |];
    unfold try_catch, rpc_getBlock, bind, emit, ret, throw; simpl; rewrite Hb; simpl;
    split; reflexivity.
Qed.

(** ** Saving into the table *)

Lemma update_self tx : Repository.update tx (assign tx undefined undefined) = tx.
Proof. destruct tx; reflexivity. Qed.

Lemma save_ids tx rows :
  In (id tx) (map id rows) -> map id (Repository.save tx rows) = map id rows.
Proof.
  induction rows as [| r rows IH]; simpl; [intros [] |].
  intros Hin. destruct (Nat.eqb (id r) (id tx)) eqn:E; simpl; [reflexivity |].
  f_equal. apply IH. destruct Hin as [Hin | Hin]; [| assumption].
  apply Nat.eqb_neq in E. contradiction.
Qed.

Lemma save_new_id tx rows :
  ~ In (id tx) (map id rows) -> map id (Repository.save tx rows) = map id rows ++ [id tx].
Proof.
  induction rows as [| r rows IH]; simpl; [reflexivity |].
  intros Hnot. destruct (Nat.eqb (id r) (id tx)) eqn:E; simpl.
  - apply Nat.eqb_eq in E. exfalso. apply Hnot. now left.
  - f_equal. apply IH. intros Hin. apply Hnot. now right.
Qed.

Lemma save_unique tx rows : unique_ids rows -> unique_ids (Repository.save tx rows).
Proof.
  unfold unique_ids. intros Hu.
  destruct (in_dec Nat.eq_dec (id tx) (map id rows)) as [Hin | Hnot].
  - now rewrite save_ids.
  - rewrite save_new_id by assumption.
    apply NoDup_rev in Hu. rewrite <- (rev_involutive (map id rows ++ [id tx])).
    apply NoDup_rev. rewrite rev_app_distr. simpl. constructor; [| assumption].
    now rewrite <- in_rev.
Qed.

(** A save leaves every row with another key as it is. *)
Lemma save_other tx r rows :
  id r <> id tx -> In r rows -> In r (Repository.save tx rows).
Proof.
  intros Hid. induction rows as [| r0 rows IH]; simpl; [intros [] |].
  intros [-> | Hin].
  - apply Nat.eqb_neq in Hid. rewrite Hid. now left.
  - destruct (Nat.eqb (id r0) (id tx)); [now right | right; now apply IH].
Qed.

(** Two rows of a table with unique keys that share a key are the same
    row. *)
Lemma unique_ids_inj rows r1 r2 :
  unique_ids rows -> In r1 rows -> In r2 rows -> id r1 = id r2 -> r1 = r2.
Proof.
  unfold unique_ids. induction rows as [| r rows IH]; simpl; [intros _ [] |].
  intros Hu H1 H2 Hid. apply NoDup_cons_iff in Hu as [Hnot Hu].
  destruct H1 as [-> | H1], H2 as [-> | H2].
  - reflexivity.
  - exfalso. apply Hnot. rewrite Hid. now apply in_map.
  - exfalso. apply Hnot. rewrite <- Hid. now apply in_map.
  - now apply IH.
Qed.

(** Saving a loaded entity whose two fields are [undefined] writes
    nothing. *)
Lemma save_nothing tx rows :
  unique_ids rows -> In tx rows ->
  Repository.save (assign tx undefined undefined) rows = rows.
Proof.
  intros Hu Hin. induction rows as [| r rows IH]; simpl; [destruct Hin |].
  destruct (Nat.eqb (id r) (id tx)) eqn:E.
  - apply Nat.eqb_eq in E.
    assert (r = tx) as ->.
    { apply (unique_ids_inj (r :: rows)); auto. now left. }
    now rewrite update_self.
  - f_equal. apply IH.
    + unfold unique_ids in *. simpl in Hu. now apply NoDup_cons_iff in Hu as [_ Hu].
    + destruct Hin as [-> | Hin]; [| assumption].
      rewrite Nat.eqb_refl in E. discriminate.
Qed.

(** ** Claims about the transactionInfo endpoint *)

(** C2 (the claim, which the code does not meet).  When no stored record
    has [tx_eth_hash] equal to the hash of the request, the handler of both
    revisions throws a TypeError at [tx.extrinsic_hash]: the test [!tx] that
    would answer HTTP 400 with "No transaction found with id ..." comes only
    after that property access, and no response is produced. *)
Theorem transactionInfo_missing_record_throws :
  forall api h w,
    (forall r, In r (db w) -> tx_eth_hash r <> h) ->
    eval (App.transactionInfo api h) w
    = Throw (TypeError "Cannot read properties of undefined (reading 'extrinsic_hash')")
    /\ eval (Part000.transactionInfo api h) w
       = Throw (TypeError "Cannot read properties of undefined (reading 'extrinsic_hash')").
Proof.
  intros api h w Hno. apply findOne_none in Hno.
  split; [unfold App.transactionInfo | unfold Part000.transactionInfo];
    now apply info_missing.
Qed.

Lemma transactionInfo_missing_record_throws_witness :
  eval (App.transactionInfo Sample.api "0xdead")
       (Sample.world [Sample.record 1 "0xe1" "0xb1" null null])
  = Throw (TypeError "Cannot read properties of undefined (reading 'extrinsic_hash')")
  /\ eval (Part000.transactionInfo Sample.api "0xdead")
          (Sample.world [Sample.record 1 "0xe1" "0xb1" null null])
     = Throw (TypeError "Cannot read properties of undefined (reading 'extrinsic_hash')").
Proof.
  apply (transactionInfo_missing_record_throws Sample.api "0xdead"
           (Sample.world [Sample.record 1 "0xe1" "0xb1" null null])).
  intros r [<- | []]. simpl. discriminate.
Defined.

(** C6.  For a record that is not yet enriched and every non-empty block
    the node returns for it, the handler of both revisions answers, and
    saves on the record, the second rendered argument of the LAST Operation
    of the block (absent when that Operation has fewer than two arguments)
    as [netAmount] and the hex hash of that Operation as [extrinsicHash],
    whatever its section, method and arguments. *)
Theorem transactionInfo_takes_last_operation :
  forall api h w tx b pre ex,
    Repository.findOne (by_tx_eth_hash h) (db w) = Some tx ->
    both_set tx = false ->
    getBlock api (tx_glitch_hash tx) = Fetched b ->
    extrinsics (block b) = pre ++ [ex] ->
    (eval (App.transactionInfo api h) w
     = Return {| status := 200;
                 body := Settlement (at_ (map toString (args ex)) 1) (str (toHex (hash ex))) |}
     /\ db (exec (App.transactionInfo api h) w)
        = Repository.save
            (assign tx (at_ (map toString (args ex)) 1) (str (toHex (hash ex)))) (db w))
    /\ (eval (Part000.transactionInfo api h) w
        = Return {| status := 200;
                    body := Settlement (at_ (map toString (args ex)) 1)
                                       (str (toHex (hash ex))) |}
        /\ db (exec (Part000.transactionInfo api h) w)
           = Repository.save
               (assign tx (at_ (map toString (args ex)) 1) (str (toHex (hash ex)))) (db w)).
Proof.
  intros api h w tx b pre ex Hfind Hboth Hb Hops.
  split; [unfold App.transactionInfo | unfold Part000.transactionInfo];
    match goal with
    | |- context [transactionInfo_handler ?m] =>
        destruct (info_fetched m api h w tx b Hfind Hboth Hb) as (events & E)
    end;
    unfold eval, exec; rewrite E; rewrite Hops, after_all_last; split; reflexivity.
Qed.

Lemma transactionInfo_takes_last_operation_witness :
  (eval (App.transactionInfo Sample.api "0xe1")
        (Sample.world [Sample.record 1 "0xe1" "0xb1" null null])
   = Return {| status := 200; body := Settlement (str "999") (str "0x03") |}
   /\ db (exec (App.transactionInfo Sample.api "0xe1")
               (Sample.world [Sample.record 1 "0xe1" "0xb1" null null]))
      = [Sample.record 1 "0xe1" "0xb1" (str "999") (str "0x03")])
  /\ (eval (Part000.transactionInfo Sample.api "0xe1")
           (Sample.world [Sample.record 1 "0xe1" "0xb1" null null])
      = Return {| status := 200; body := Settlement (str "999") (str "0x03") |}
      /\ db (exec (Part000.transactionInfo Sample.api "0xe1")
                  (Sample.world [Sample.record 1 "0xe1" "0xb1" null null]))
         = [Sample.record 1 "0xe1" "0xb1" (str "999") (str "0x03")]).
Proof.
  apply (transactionInfo_takes_last_operation Sample.api "0xe1"
           (Sample.world [Sample.record 1 "0xe1" "0xb1" null null])
           (Sample.record 1 "0xe1" "0xb1" null null)
           (Sample.blockOf [Sample.remark; Sample.transfer100; Sample.transfer999])
           [Sample.remark; Sample.transfer100] Sample.transfer999);
    reflexivity.
Defined.

(** C9.  For a stored record whose two settlement fields are absent and
    whose [tx_glitch_hash] resolves to a block without Operations, the
    handler of both revisions answers HTTP 200 with [netAmount] and
    [extrinsicHash] both absent (not HTTP 400), saves the record once with
    both fields [undefined], and leaves the table as it was, so the stored
    record still has both fields absent. *)
Theorem transactionInfo_empty_block :
  forall api h w tx b,
    unique_ids (db w) ->
    Repository.findOne (by_tx_eth_hash h) (db w) = Some tx ->
    absent (net_amount tx) = true ->
    absent (extrinsic_hash tx) = true ->
    getBlock api (tx_glitch_hash tx) = Fetched b ->
    extrinsics (block b) = [] ->
    (eval (App.transactionInfo api h) w
     = Return {| status := 200; body := Settlement undefined undefined |}
     /\ hd_error (trace (exec (App.transactionInfo api h) w))
        = Some (Save (assign tx undefined undefined))
     /\ db (exec (App.transactionInfo api h) w) = db w
     /\ Repository.findOne (by_tx_eth_hash h) (db (exec (App.transactionInfo api h) w))
        = Some tx)
    /\ (eval (Part000.transactionInfo api h) w
        = Return {| status := 200; body := Settlement undefined undefined |}
        /\ hd_error (trace (exec (Part000.transactionInfo api h) w))
           = Some (Save (assign tx undefined undefined))
        /\ db (exec (Part000.transactionInfo api h) w) = db w
        /\ Repository.findOne (by_tx_eth_hash h)
             (db (exec (Part000.transactionInfo api h) w)) = Some tx).
Proof.
  intros api h w tx b Hu Hfind Hn He Hb Hops.
  assert (Hboth : both_set tx = false).
  { unfold both_set. destruct (extrinsic_hash tx); simpl in *; try reflexivity.
    discriminate. }
  destruct (findOne_some _ _ _ Hfind) as [Hin _].
  split; [unfold App.transactionInfo | unfold Part000.transactionInfo];
    match goal with
    | |- context [transactionInfo_handler ?m] =>
        destruct (info_fetched m api h w tx b Hfind Hboth Hb) as (events & E)
    end;
    unfold eval, exec; rewrite E; rewrite Hops; simpl;
    rewrite (save_nothing tx (db w) Hu Hin); repeat split; assumption.
Qed.

Lemma transactionInfo_empty_block_witness :
  (eval (App.transactionInfo Sample.api "0xe5")
        (Sample.world [Sample.record 5 "0xe5" "0xb5" null null])
   = Return {| status := 200; body := Settlement undefined undefined |}
   /\ hd_error (trace (exec (App.transactionInfo Sample.api "0xe5")
                            (Sample.world [Sample.record 5 "0xe5" "0xb5" null null])))
      = Some (Save (assign (Sample.record 5 "0xe5" "0xb5" null null) undefined undefined))
   /\ db (exec (App.transactionInfo Sample.api "0xe5")
               (Sample.world [Sample.record 5 "0xe5" "0xb5" null null]))
      = [Sample.record 5 "0xe5" "0xb5" null null]
   /\ Repository.findOne (by_tx_eth_hash "0xe5")
        (db (exec (App.transactionInfo Sample.api "0xe5")
                  (Sample.world [Sample.record 5 "0xe5" "0xb5" null null])))
      = Some (Sample.record 5 "0xe5" "0xb5" null null))
  /\ (eval (Part000.transactionInfo Sample.api "0xe5")
           (Sample.world [Sample.record 5 "0xe5" "0xb5" null null])
      = Return {| status := 200; body := Settlement undefined undefined |}
      /\ hd_error (trace (exec (Part000.transactionInfo Sample.api "0xe5")
                               (Sample.world [Sample.record 5 "0xe5" "0xb5" null null])))
         = Some (Save (assign (Sample.record 5 "0xe5" "0xb5" null null) undefined undefined))
      /\ db (exec (Part000.transactionInfo Sample.api "0xe5")
                  (Sample.world [Sample.record 5 "0xe5" "0xb5" null null]))
         = [Sample.record 5 "0xe5" "0xb5" null null]
      /\ Repository.findOne (by_tx_eth_hash "0xe5")
           (db (exec (Part000.transactionInfo Sample.api "0xe5")
                     (Sample.world [Sample.record 5 "0xe5" "0xb5" null null])))
         = Some (Sample.record 5 "0xe5" "0xb5" null null)).
Proof.
  apply (transactionInfo_empty_block Sample.api "0xe5"
           (Sample.world [Sample.record 5 "0xe5" "0xb5" null null])
           (Sample.record 5 "0xe5" "0xb5" null null)
           (Sample.blockOf [])).
  - unfold unique_ids. simpl. constructor; [intros [] | constructor].
  - reflexivity.
  - reflexivity.
  - reflexivity.
  - reflexivity.
  - reflexivity.
Defined.

(** ** The history handlers, record by record *)

Lemma scan_total target ops : forall v w,
  exists w', db w' = db w
    /\ (forEach (App.getGlitchInfo_callback target) ops v w
        = (Return (fold_left (after_round target) ops v), w')
        \/ exists msg, forEach (App.getGlitchInfo_callback target) ops v w
                       = (Throw (TypeError msg), w')).
Proof.
  induction ops as [| ex ops IH]; intros v w; simpl.
  - exists w. split; [reflexivity | now left].
  - destruct (lacks_recipient ex) eqn:Hrec.
    + destruct (callback_bare target ex v w Hrec) as (msg & w1 & E1 & D1).
      exists w1. split; [assumption |]. right. exists msg.
      unfold bind. now rewrite E1.
    + destruct (callback_round target ex v w Hrec) as (w1 & E1 & D1).
      destruct (IH (after_round target v ex) w1) as (w2 & D2 & [E2 | (msg & E2)]).
      * exists w2. split; [congruence |]. left. unfold bind. now rewrite E1, E2.
      * exists w2. split; [congruence |]. right. exists msg.
        unfold bind. now rewrite E1, E2.
Qed.

Lemma getGlitchInfo_cases api h target w :
  exists w', db w' = db w
    /\ ((exists b, getBlock api h = Fetched b
                   /\ App.getGlitchInfo api h target w
                      = (Return (fold_left (after_round target) (extrinsics (block b)) unset),
                         w'))
        \/ exists e, App.getGlitchInfo api h target w = (Throw e, w')).
Proof.
  destruct (getBlock api h) as [b | err] eqn:Hb.
  - destruct (getGlitchInfo_fetched api h target b w Hb) as (w1 & D1 & E).
    unfold App.getGlitchInfo_scan in E.
    destruct (scan_total target (extrinsics (block b)) unset w1)
      as (w2 & D2 & [E2 | (msg & E2)]).
    + exists w2. split; [congruence |]. left. exists b. split; [reflexivity |].
      now rewrite E, E2.
    + exists w2. split; [congruence |]. right. exists (TypeError msg).
      now rewrite E, E2.
  - eexists. split; [| right; eexists].
    2:{ unfold App.getGlitchInfo, try_catch, bind, rpc_getBlock, console, emit, ret, throw.
        simpl. rewrite Hb. simpl. reflexivity. }
    reflexivity.
Qed.

(** The callback of the first revision answers the entity as loaded, and
    either leaves the table alone or saves the outcome of the scan on a
    record that is not enriched. *)
Lemma app_callback_cases api tx w :
  exists w', App.transactionHistory_callback api tx w = (Return tx, w')
    /\ (db w' = db w
        \/ (both_set tx = false
            /\ exists b, getBlock api (tx_glitch_hash tx) = Fetched b
                 /\ db w' = Repository.save
                     (assign tx
                        (fst (fold_left (after_round (to_glitch_address tx))
                                (extrinsics (block b)) unset))
                        (snd (fold_left (after_round (to_glitch_address tx))
                                (extrinsics (block b)) unset)))
                     (db w))).
Proof.
  unfold App.transactionHistory_callback. fold (both_set tx).
  destruct (both_set tx) eqn:Hboth.
  - eexists. unfold bind, console, emit, ret. simpl. split; [reflexivity | now left].
  - destruct (getGlitchInfo_cases api (tx_glitch_hash tx) (to_glitch_address tx) w)
      as (w1 & D1 & [(b & Hb & E) | (e & E)]).
    + eexists. unfold bind, try_catch. rewrite E. unfold repo_save, ret. simpl.
      split; [reflexivity |]. right. split; [reflexivity |].
      exists b. split; [assumption |]. now rewrite D1.
    + eexists. unfold bind, try_catch. rewrite E.
      unfold bind, console, emit, ret. simpl.
      split; [reflexivity |]. now left.
Qed.

(** The callback of the later revision answers a copy of the entity as
    loaded, and either leaves the table alone or saves what the helper
    resolved to on a record whose two fields are both falsy. *)
Lemma part_callback_cases g api provider tx w :
  exists row w', Part000.transactionHistory_callback g api provider tx w = (Return row, w')
    /\ row_tx row = tx
    /\ (db w' = db w
        \/ (truthy (extrinsic_hash tx) = false /\ truthy (net_amount tx) = false
            /\ exists info events, g tx api = (Return info, events)
                 /\ db w' = Repository.save
                              (assign tx (netAmount info) (extrinsicHash info)) (db w))).
Proof.
  unfold Part000.transactionHistory_callback, try_catch, bind, call_glitch,
    Part000.await, repo_save, console, emit, ret, throw.
  destruct (g tx api) as [[info | e] events] eqn:Hg; simpl.
  - destruct (truthy (extrinsic_hash tx)) eqn:He; simpl.
    + destruct (getTransaction provider (tx_eth_hash tx)) as [[t |] | err]; simpl;
        try destruct (getEthBlock provider (blockNumber t)); simpl;
        eexists; eexists; (split; [reflexivity |]); (split; [reflexivity |]); now left.
    + destruct (truthy (net_amount tx)) eqn:Hn; simpl;
        destruct (getTransaction provider (tx_eth_hash tx)) as [[t |] | err]; simpl;
        try destruct (getEthBlock provider (blockNumber t)); simpl;
        eexists; eexists; (split; [reflexivity |]); (split; [reflexivity |]);
        first [ now left
              | right; split; [reflexivity |]; split; [reflexivity |];
                exists info, events; split; reflexivity ].
  - destruct (getTransaction provider (tx_eth_hash tx)) as [[t |] | err]; simpl;
      try destruct (getEthBlock provider (blockNumber t)); simpl;
      eexists; eexists; (split; [reflexivity |]); (split; [reflexivity |]); now left.
Qed.

Lemma mapM_keeps {A B} (P : list Tx -> Prop) (callback : A -> M B) l :
  (forall a, In a l -> keeps P (callback a)) ->
  keeps P (mapM callback l).
Proof.
  induction l as [| a l IH]; intros Hcb w HP; simpl.
  - assumption.
  - unfold exec, bind. destruct (callback a w) as [[b | e] w1] eqn:E1.
    + assert (HP1 : P (db w1)).
      { specialize (Hcb a (or_introl eq_refl) w HP). unfold exec in Hcb.
        now rewrite E1 in Hcb. }
      assert (IH' : keeps P (mapM callback l)).
      { apply IH. intros a' Ha'. apply Hcb. now right. }
      specialize (IH' w1 HP1). unfold exec in IH'.
      destruct (mapM callback l w1) as [[bs | e] w2]; simpl in *; assumption.
    + specialize (Hcb a (or_introl eq_refl) w HP). unfold exec in Hcb.
      now rewrite E1 in Hcb.
Qed.

(** When every callback returns, so does the map, element by element. *)
Lemma mapM_returns {A B} (R : A -> B -> Prop) (callback : A -> M B) l :
  (forall a w, exists b w', callback a w = (Return b, w') /\ R a b) ->
  forall w, exists bs w', mapM callback l w = (Return bs, w') /\ Forall2 R l bs.
Proof.
  intros Hcb. induction l as [| a l IH]; intros w; simpl.
  - exists [], w. split; [reflexivity | constructor].
  - destruct (Hcb a w) as (b & w1 & E1 & Hr).
    destruct (IH w1) as (bs & w2 & E2 & Hrs).
    exists (b :: bs), w2. unfold bind. rewrite E1, E2. split; [reflexivity |].
    now constructor.
Qed.

(** ** The history handlers as a whole *)

Lemma in_firstn_in {A} n (l : list A) x : In x (firstn n l) -> In x l.
Proof. intros H. rewrite <- (firstn_skipn n l). apply in_or_app. now left. Qed.

Lemma in_skipn_in {A} n (l : list A) x : In x (skipn n l) -> In x l.
Proof. intros H. rewrite <- (firstn_skipn n l). apply in_or_app. now right. Qed.

Lemma find_subset o rows txs x :
  Repository.find o rows = Some (Fetched txs) -> In x txs -> In x rows.
Proof.
  unfold Repository.find. intros E H.
  assert (Hf : In x (filter (fun r => existsb (fun c => Repository.satisfies c r)
                                        (Repository.where_ o)) rows)).
  { destruct (Repository.skip o) as [[n | |] |];
      destruct (Repository.take o) as [[[| k] | |] |]; try discriminate;
      injection E as <-;
      try apply (in_firstn_in (S k)) in H; try apply in_skipn_in in H; exact H. }
  now apply filter_In in Hf as [Hf _].
Qed.

(** The [where] array of the history endpoint is the disjunction of the
    specification. *)
Lemma by_wallet_either wallet r :
  existsb (fun c => Repository.satisfies c r) (by_wallet wallet)
  = String.eqb (from_eth_address r) wallet || String.eqb (to_glitch_address r) wallet.
Proof.
  unfold by_wallet, Repository.satisfies, Repository.holds. simpl.
  now rewrite !andb_true_r, orb_false_r.
Qed.




(** The later handler: its two lines, then either the rejection of [find],
    or the line that counts the rows found and the callback on each. *)
Lemma part_history_run g api provider wallet query w :
  exists w0, db w0 = db w
    /\ Part000.transactionHistory g api provider wallet query w
       = match Repository.find (options_of wallet query) (db w) with
         | None => (Throw (Unfollowed "find"), w0)
         | Some (Failed err) => (Throw (Rejected err), w0)
         | Some (Fetched txs) =>
             match mapM (Part000.transactionHistory_callback g api provider) txs
                     {| db := db w0;
                        trace := Console (show_nat (length txs) ++ " transactions was found!")
                                 :: trace w0 |} with
             | (Return rows, w2) => (Return (json (Records rows)), w2)
             | (Throw e, w2) => (Throw e, w2)
             end
         end.
Proof.
  eexists. split.
  2:{ unfold Part000.transactionHistory, bind, repo_find, console, emit, ret. simpl.
      fold (options_of wallet query).
      destruct (Repository.find (options_of wallet query) (db w)) as [[txs | err] |];
        reflexivity. }
  reflexivity.
Qed.

Lemma app_history_run api wallet w :
  exists w1, db w1 = db w
    /\ App.transactionHistory api wallet w
       = match mapM (App.transactionHistory_callback api)
                 (filter (concerns wallet) (db w)) w1 with
         | (Return txs, w2) => (Return (json (Records (map plain_row txs))), w2)
         | (Throw e, w2) => (Throw e, w2)
         end.
Proof.
  eexists. split.
  2:{ unfold App.transactionHistory, bind, repo_find, console, emit, ret,
        Repository.find. simpl.
      rewrite (filter_ext _ _ (by_wallet_either wallet)). fold (concerns wallet).
      reflexivity. }
  reflexivity.
Qed.

(** A property of the table that every callback on a selected record
    keeps is kept by the handler. *)
Lemma part_history_keeps (P : list Tx -> Prop) g api provider wallet query w :
  (forall tx, In tx (db w) -> keeps P (Part000.transactionHistory_callback g api provider tx)) ->
  P (db w) ->
  P (db (exec (Part000.transactionHistory g api provider wallet query) w)).
Proof.
  intros Hcb HP.
  destruct (part_history_run g api provider wallet query w) as (w0 & D0 & E).
  unfold exec. rewrite E.
  destruct (Repository.find (options_of wallet query) (db w)) as [[txs | err] |] eqn:Hfind;
    [| simpl; now rewrite D0 | simpl; now rewrite D0].
  assert (Hk : keeps P (mapM (Part000.transactionHistory_callback g api provider) txs)).
  { apply mapM_keeps. intros tx Hin. apply Hcb. now apply (find_subset _ _ _ _ Hfind). }
  match goal with
  | |- context [mapM _ txs ?w1] => specialize (Hk w1); unfold exec in Hk;
                                   destruct (mapM _ txs w1) as [[rows | e] w2]
  end; simpl in *; apply Hk; now rewrite D0.
Qed.






(** ** Records the guards leave alone *)

Lemma extends_refl t : extends t t.
Proof. now exists []. Qed.

Lemma extends_cons e t t0 : extends t t0 -> extends (e :: t) t0.
Proof. intros [later ->]. now exists (e :: later). Qed.

Lemma extends_in e t t0 : extends t t0 -> In e t0 -> In e t.
Proof. intros [later ->] Hin. apply in_or_app. now right. Qed.

(** The trace of the later callback continues the events of the helper. *)
Lemma part_callback_trace g api provider tx w :
  extends (trace (exec (Part000.transactionHistory_callback g api provider tx) w))
          (snd (g tx api) ++ trace w).
Proof.
  unfold exec, Part000.transactionHistory_callback, try_catch, bind, call_glitch,
    Part000.await, repo_save, console, emit, ret, throw.
  destruct (g tx api) as [[info | e] events]; simpl;
    [destruct (truthy (extrinsic_hash tx)); simpl;
       [| destruct (truthy (net_amount tx)); simpl] |];
    destruct (getTransaction provider (tx_eth_hash tx)) as [[t |] | err]; simpl;
    try destruct (getEthBlock provider (blockNumber t)); simpl;
    repeat apply extends_cons; apply extends_refl.
Qed.

Lemma glitch_requests_block tx api :
  truthy (extrinsic_hash tx) && truthy (net_amount tx) = false ->
  In (GetBlock (tx_glitch_hash tx)) (snd (Glitch.getGlitchInfo tx api)).
Proof.
  intros Hlacks. unfold Glitch.getGlitchInfo. rewrite Hlacks.
  destruct (getBlock api (tx_glitch_hash tx)); simpl.
  - apply in_or_app. right. now left.
  - now left.
Qed.

(** The later callback leaves the table alone on a record one of whose
    fields is truthy. *)
Lemma part_callback_guarded g api provider tx w :
  truthy (extrinsic_hash tx) || truthy (net_amount tx) = true ->
  db (exec (Part000.transactionHistory_callback g api provider tx) w) = db w.
Proof.
  intros Hg.
  destruct (part_callback_cases g api provider tx w)
    as (row & w' & E & _ & [D | (He & Hn & _)]);
    unfold exec; rewrite E; simpl; [assumption |].
  rewrite He, Hn in Hg. discriminate.
Qed.

Lemma part_callback_keeps_row g api provider rows0 r tx :
  unique_ids rows0 -> In r rows0 -> In tx rows0 ->
  truthy (extrinsic_hash r) || truthy (net_amount r) = true ->
  keeps (fun d => unique_ids d /\ In r d) (Part000.transactionHistory_callback g api provider tx).
Proof.
  intros Hu Hr Htx Hg w [Huw Hin].
  destruct (part_callback_cases g api provider tx w)
    as (row & w' & E & _ & [D | (He & Hn & info & events & _ & D)]);
    unfold exec; rewrite E; simpl; rewrite D; [now split |].
  split; [now apply save_unique |].
  apply save_other; [| assumption]. simpl. intros Hid.
  assert (r = tx) by now apply (unique_ids_inj rows0).
  subst. rewrite He, Hn in Hg. discriminate.
Qed.


Lemma one_set_guard r :
  one_set r = true -> truthy (extrinsic_hash r) || truthy (net_amount r) = true.
Proof. unfold one_set. destruct (truthy (net_amount r)), (truthy (extrinsic_hash r)); auto. Qed.


(** C10.  In the history handler of the later revision, a record on which
    exactly one of [net_amount] and [extrinsic_hash] is set (a non-empty
    string, the other one being falsy) is never saved: the guard
    [!tx.extrinsic_hash && !tx.net_amount] fails, so the callback leaves the
    table as it is whatever the helper answers, and after the whole handler
    the record is still stored unchanged (keys being unique); with the
    helper of [./glitch] as the specification describes it, the block of the
    record is nevertheless requested from the node. *)
Theorem history_leaves_half_set_record :
  forall getGlitchInfo api provider r,
    one_set r = true ->
    (forall w,
        db (exec (Part000.transactionHistory_callback getGlitchInfo api provider r) w) = db w)
    /\ (forall wallet query w,
           unique_ids (db w) -> In r (db w) ->
           In r (db (exec (Part000.transactionHistory getGlitchInfo api provider wallet query) w)))
    /\ (forall w,
           In (GetBlock (tx_glitch_hash r))
              (trace (exec (Part000.transactionHistory_callback Glitch.getGlitchInfo
                              api provider r) w))).
Proof.
  intros g api provider r Hone.
  assert (Hlacks : truthy (extrinsic_hash r) && truthy (net_amount r) = false).
  { unfold one_set in Hone.
    destruct (truthy (net_amount r)), (truthy (extrinsic_hash r)); auto; discriminate. }
  apply one_set_guard in Hone. repeat split.
  - intros w. now apply part_callback_guarded.
  - intros wallet query w Hu Hin.
    apply (part_history_keeps (fun d => unique_ids d /\ In r d) g api provider wallet query w);
      [| now split].
    intros tx Htx. now apply (part_callback_keeps_row g api provider (db w)).
  - intros w. eapply extends_in; [apply part_callback_trace |].
    apply in_or_app. left. now apply glitch_requests_block.
Qed.

Lemma history_leaves_half_set_record_witness :
  (forall w,
      db (exec (Part000.transactionHistory_callback Glitch.getGlitchInfo Sample.api
                  Sample.provider (Sample.record 3 "0xe3" "0xb1" (str "77") null)) w) = db w)
  /\ (forall wallet query w,
         unique_ids (db w) -> In (Sample.record 3 "0xe3" "0xb1" (str "77") null) (db w) ->
         In (Sample.record 3 "0xe3" "0xb1" (str "77") null)
            (db (exec (Part000.transactionHistory Glitch.getGlitchInfo Sample.api
                         Sample.provider wallet query) w)))
  /\ (forall w,
         In (GetBlock (tx_glitch_hash (Sample.record 3 "0xe3" "0xb1" (str "77") null)))
            (trace (exec (Part000.transactionHistory_callback Glitch.getGlitchInfo
                            Sample.api Sample.provider
                            (Sample.record 3 "0xe3" "0xb1" (str "77") null)) w))).
Proof.
  apply (history_leaves_half_set_record Glitch.getGlitchInfo Sample.api Sample.provider
           (Sample.record 3 "0xe3" "0xb1" (str "77") null)).
  reflexivity.
Defined.



(** ** Idempotence of the enrichment *)






(** ** The two settlement fields over sequences of requests *)












(** ** Further properties of [getGlitchInfo] *)

Lemma world_eta w : {| db := db w; trace := trace w |} = w.
Proof. now destruct w. Qed.

Lemma callback_exact target ex v w :
  lacks_recipient ex = false ->
  App.getGlitchInfo_callback target ex v w
  = (Return (after_round target v ex),
     {| db := db w; trace := rev (round_lines ex) ++ trace w |}).
Proof.
  unfold lacks_recipient, after_round, transfer_to, is_transfer,
    App.getGlitchInfo_callback, settlement_of, round_lines.
  intros Hrec.
  destruct (String.eqb (section ex) "balances" && String.eqb (method ex) "transfer") eqn:Ht;
    simpl in *.
  - destruct (args ex) as [| a0 rest] eqn:Ha; [discriminate |].
    unfold bind, console, emit, first_arg_toString, ret; simpl.
    destruct (String.eqb (toString a0) target); destruct (isSigned ex); reflexivity.
  - unfold bind, console, emit, ret; simpl.
    destruct (isSigned ex); reflexivity.
Qed.

Lemma callback_bare_exact target ex v w :
  lacks_recipient ex = true ->
  App.getGlitchInfo_callback target ex v w
  = (Throw (TypeError "Cannot read properties of undefined (reading 'toString')"),
     {| db := db w; trace := Console (call_line ex) :: trace w |}).
Proof.
  unfold lacks_recipient, is_transfer, App.getGlitchInfo_callback.
  intros Hrec. apply andb_prop in Hrec as [Ht Ha]. rewrite Ht.
  destruct (args ex); [| discriminate]. reflexivity.
Qed.

Lemma scan_eval target ops : forall v w,
  eval (forEach (App.getGlitchInfo_callback target) ops v) w
  = if existsb lacks_recipient ops
    then Throw (TypeError "Cannot read properties of undefined (reading 'toString')")
    else Return (fold_left (after_round target) ops v).
Proof.
  induction ops as [| ex ops IH]; intros v w; simpl; [reflexivity |].
  unfold eval, bind. destruct (lacks_recipient ex) eqn:Hrec; simpl.
  - now rewrite callback_bare_exact.
  - rewrite callback_exact by assumption. apply IH.
Qed.

Lemma scan_trace target ops : forall v w,
  (forall e, In e ops -> lacks_recipient e = false) ->
  forEach (App.getGlitchInfo_callback target) ops v w
  = (Return (fold_left (after_round target) ops v),
     {| db := db w; trace := rev (flat_map round_lines ops) ++ trace w |}).
Proof.
  induction ops as [| ex ops IH]; intros v w Hok; simpl.
  - unfold ret. now rewrite world_eta.
  - unfold bind. rewrite callback_exact by (apply Hok; now left).
    rewrite IH by (intros e He; apply Hok; now right). simpl.
    rewrite rev_app_distr. repeat rewrite <- app_assoc. reflexivity.
Qed.

Lemma getGlitchInfo_eval api h target w :
  eval (App.getGlitchInfo api h target) w
  = match getBlock api h with
    | Failed _ => Throw (TypeError "Cannot read properties of undefined (reading 'block')")
    | Fetched b =>
        if existsb lacks_recipient (extrinsics (block b))
        then Throw (TypeError "Cannot read properties of undefined (reading 'toString')")
        else Return (fold_left (after_round target) (extrinsics (block b)) unset)
    end.
Proof.
  destruct (getBlock api h) as [b | err] eqn:Hb.
  - destruct (getGlitchInfo_fetched api h target b w Hb) as (w1 & _ & E).
    unfold eval. rewrite E. apply scan_eval.
  - unfold eval, App.getGlitchInfo, try_catch, bind, rpc_getBlock, console, emit, ret, throw.
    simpl. rewrite Hb. reflexivity.
Qed.

(** X1.  When the node rejects the request of the block, [getGlitchInfo]
    prints the rejection and goes on: it throws a TypeError on reading
    [block] of the undefined [signedBlock] (the rejection itself is
    swallowed), after one request and two console lines; the table is left
    as it is. *)
Theorem getGlitchInfo_rejected_fetch :
  forall api h target err w,
    getBlock api h = Failed err ->
    App.getGlitchInfo api h target w
    = (Throw (TypeError "Cannot read properties of undefined (reading 'block')"),
       {| db := db w;
          trace := Console err :: GetBlock h
                   :: Console ("Asking the node for block information: " ++ h)
                   :: trace w |}).
Proof.
  intros api h target err w Hb.
  unfold App.getGlitchInfo, try_catch, bind, rpc_getBlock, console, emit, ret, throw.
  simpl. rewrite Hb. reflexivity.
Qed.

Lemma getGlitchInfo_rejected_fetch_witness :
  App.getGlitchInfo Sample.api "0xffff" "0xAA" (Sample.world [])
  = (Throw (TypeError "Cannot read properties of undefined (reading 'block')"),
     {| db := [];
        trace := [Console "unknown block"; GetBlock "0xffff";
                  Console "Asking the node for block information: 0xffff"] |}).
Proof.
  apply (getGlitchInfo_rejected_fetch Sample.api "0xffff" "0xAA" "unknown block"
           (Sample.world [])).
  reflexivity.
Defined.

(** X2.  One native transfer without arguments anywhere in the block makes
    [getGlitchInfo] throw, whatever the target and whatever the other
    Operations are: a match found before it is lost with the throw. *)
Theorem getGlitchInfo_bare_transfer_throws :
  forall api h target b e w,
    getBlock api h = Fetched b ->
    In e (extrinsics (block b)) ->
    lacks_recipient e = true ->
    eval (App.getGlitchInfo api h target) w
    = Throw (TypeError "Cannot read properties of undefined (reading 'toString')").
Proof.
  intros api h target b e w Hb Hin Hrec.
  rewrite getGlitchInfo_eval, Hb.
  assert (Hex : existsb lacks_recipient (extrinsics (block b)) = true).
  { apply existsb_exists. now exists e. }
  now rewrite Hex.
Qed.

Lemma getGlitchInfo_bare_transfer_throws_witness :
  eval (App.getGlitchInfo
          {| getBlock := fun _ => Fetched (Sample.blockOf
                                    [Sample.transfer100; Sample.transfer_bare]);
             feeAt := fun _ => undefined; timestampAt := fun _ => undefined |}
          "0xb9" "0xAA") (Sample.world [])
  = Throw (TypeError "Cannot read properties of undefined (reading 'toString')").
Proof.
  apply (getGlitchInfo_bare_transfer_throws _ "0xb9" "0xAA"
           (Sample.blockOf [Sample.transfer100; Sample.transfer_bare])
           Sample.transfer_bare).
  - reflexivity.
  - right. left. reflexivity.
  - reflexivity.
Defined.

(** X3.  On a block the node returns in which each native transfer carries
    an argument, [getGlitchInfo] prints, after the line that announces the
    request, one line for every Operation of the block in block order, also
    for those after a match, each followed by the signer line when the
    Operation is signed; it requests the block once, saves nothing and
    leaves the table as it is. *)
Theorem getGlitchInfo_prints_every_operation :
  forall api h target b w,
    getBlock api h = Fetched b ->
    (forall e, In e (extrinsics (block b)) -> lacks_recipient e = false) ->
    exec (App.getGlitchInfo api h target) w
    = {| db := db w;
         trace := rev (flat_map round_lines (extrinsics (block b)))
                  ++ GetBlock h
                  :: Console ("Asking the node for block information: " ++ h)
                  :: trace w |}.
Proof.
  intros api h target b w Hb Hok.
  unfold exec, App.getGlitchInfo, try_catch, bind, rpc_getBlock, console, emit, ret.
  simpl. rewrite Hb. simpl. unfold App.getGlitchInfo_scan.
  now rewrite scan_trace.
Qed.

Lemma getGlitchInfo_prints_every_operation_witness :
  exec (App.getGlitchInfo Sample.api "0xb1" "0xAA") (Sample.world [])
  = {| db := [];
       trace := [Console "balances.transfer(0xAA, 999)";
                 Console "balances.transfer(0xAA, 100)";
                 Console "system.remark()";
                 GetBlock "0xb1";
                 Console "Asking the node for block information: 0xb1"] |}.
Proof.
  apply (getGlitchInfo_prints_every_operation Sample.api "0xb1" "0xAA"
           (Sample.blockOf [Sample.remark; Sample.transfer100; Sample.transfer999])
           (Sample.world [])).
  - reflexivity.
  - intros e He. simpl in He.
    destruct He as [<- | [<- | [<- | []]]]; reflexivity.
Defined.

Lemma same_call_round target ex ex' v :
  same_call ex ex' ->
  lacks_recipient ex = lacks_recipient ex'
  /\ after_round target v ex = after_round target v ex'.
Proof.
  intros (Ha & Hm & Hs & Hh).
  unfold lacks_recipient, after_round, transfer_to, is_transfer, settlement_of.
  now rewrite Ha, Hm, Hs, Hh.
Qed.

Lemma same_calls_rounds target ops ops' :
  Forall2 same_call ops ops' ->
  existsb lacks_recipient ops = existsb lacks_recipient ops'
  /\ forall v, fold_left (after_round target) ops v = fold_left (after_round target) ops' v.
Proof.
  induction 1 as [| ex ex' ops ops' Hex Hops [IHe IHf]]; simpl; [now split |].
  split.
  - destruct (same_call_round target ex ex' unset Hex) as [-> _]. now rewrite IHe.
  - intros v. destruct (same_call_round target ex ex' v Hex) as [_ ->]. apply IHf.
Qed.

(** X4.  What [getGlitchInfo] answers (or throws) depends only on the calls
    of the block: two blocks whose Operations have the same section, method,
    arguments and hash, and differ at most in [isSigned], [meta], [signer]
    and [nonce], give the same outcome, whatever the table and the trace. *)
Theorem getGlitchInfo_ignores_diagnostics :
  forall api api' h h' target b b' w w',
    getBlock api h = Fetched b ->
    getBlock api' h' = Fetched b' ->
    Forall2 same_call (extrinsics (block b)) (extrinsics (block b')) ->
    eval (App.getGlitchInfo api h target) w = eval (App.getGlitchInfo api' h' target) w'.
Proof.
  intros api api' h h' target b b' w w' Hb Hb' Hsame.
  rewrite !getGlitchInfo_eval, Hb, Hb'.
  destruct (same_calls_rounds target _ _ Hsame) as [-> Hf].
  now rewrite Hf.
Qed.

Lemma getGlitchInfo_ignores_diagnostics_witness :
  eval (App.getGlitchInfo Sample.api "0xb1" "0xAA") (Sample.world [])
  = eval (App.getGlitchInfo
            {| getBlock := fun _ => Fetched (Sample.blockOf
                 [Sample.remark;
                  {| isSigned := true; meta := "transfer"; args := args Sample.transfer100;
                     method := "transfer"; section := "balances";
                     hash := hash Sample.transfer100;
                     signer := Build_Codec "5Gr"; nonce := Build_Codec "3" |};
                  Sample.transfer999]);
               feeAt := fun _ => undefined; timestampAt := fun _ => undefined |}
            "0xc1" "0xAA")
         (Sample.world [Sample.record 1 "0xe1" "0xb1" null null]).
Proof.
  apply (getGlitchInfo_ignores_diagnostics Sample.api _ "0xb1" "0xc1" "0xAA"
           (Sample.blockOf [Sample.remark; Sample.transfer100; Sample.transfer999])
           (Sample.blockOf
              [Sample.remark;
               {| isSigned := true; meta := "transfer"; args := args Sample.transfer100;
                  method := "transfer"; section := "balances";
                  hash := hash Sample.transfer100;
                  signer := Build_Codec "5Gr"; nonce := Build_Codec "3" |};
               Sample.transfer999])).
  - reflexivity.
  - reflexivity.
  - repeat constructor.
Defined.

(** ** Further properties of the history handler of src/api/src/app.ts *)

Lemma find_all_concerned wallet rows :
  Repository.find {| Repository.take := None; Repository.skip := None;
                     Repository.where_ := by_wallet wallet |} rows
  = Some (Fetched (filter (concerns wallet) rows)).
Proof.
  unfold Repository.find, concerns. simpl.
  now rewrite (filter_ext _ _ (by_wallet_either wallet)).
Qed.

Lemma Forall2_eq_flip {A} (l l' : list A) : Forall2 (fun a b => b = a) l l' -> l' = l.
Proof. induction 1; simpl; congruence. Qed.

(** X5.  The history handler of the first revision never fails and never
    pages: whatever the node does, it answers HTTP 200 with one element for
    every record of which the wallet is the sender or the recipient, in
    table order, carrying the id, the addresses and the hashes of that
    record.  (Which values of the two settlement fields an element shows
    depends on whether the enrichment, which is not awaited, has assigned
    them before the answer is written; that is not stated here.) *)
Theorem app_history_answers_every_record :
  forall api wallet w,
  exists rows,
    eval (App.transactionHistory api wallet) w
    = Return {| status := 200; body := Records rows |}
    /\ map (fun row => keys_of (row_tx row)) rows
       = map keys_of (filter (concerns wallet) (db w)).
Proof.
  intros api wallet w.
  destruct (app_history_run api wallet w) as (w1 & D1 & E).
  destruct (mapM_returns (fun tx tx' => tx' = tx) (App.transactionHistory_callback api)
              (filter (concerns wallet) (db w)))
    with (w := w1) as (txs & w2 & E2 & Htxs).
  { intros tx w0. destruct (app_callback_cases api tx w0) as (w' & Ecb & _).
    now exists tx, w'. }
  apply Forall2_eq_flip in Htxs. subst txs.
  eexists. unfold eval. rewrite E, E2. simpl. split; [reflexivity |].
  now rewrite map_map.
Qed.

(** X6.  In the first revision the history callback enriches every record
    that does not have both fields set, also one that has exactly one of
    them: on a block the node returns (each native transfer carrying an
    argument) whose last matching transfer is [ex], it saves the second
    argument and the hash of [ex] over whatever the record held, and still
    answers the entity as loaded. *)
Theorem app_history_callback_overwrites :
  forall api tx b pre ex post w,
    both_set tx = false ->
    getBlock api (tx_glitch_hash tx) = Fetched b ->
    extrinsics (block b) = pre ++ ex :: post ->
    transfer_to (to_glitch_address tx) ex = true ->
    (forall e, In e post -> transfer_to (to_glitch_address tx) e = false) ->
    (forall e, In e (extrinsics (block b)) -> lacks_recipient e = false) ->
    eval (App.transactionHistory_callback api tx) w = Return tx
    /\ db (exec (App.transactionHistory_callback api tx) w)
       = Repository.save
           (assign tx (at_ (map toString (args ex)) 1) (str (toHex (hash ex)))) (db w).
Proof.
  intros api tx b pre ex post w Hboth Hb Hops Hm Hpost Hok.
  destruct (app_callback_cases api tx w) as (w' & E & _).
  split; [unfold eval; now rewrite E |].
  clear E w'. unfold exec, App.transactionHistory_callback.
  fold (both_set tx). rewrite Hboth.
  destruct (getGlitchInfo_fetched api (tx_glitch_hash tx) (to_glitch_address tx) b w Hb)
    as (w1 & D1 & E1).
  destruct (scan_rounds (to_glitch_address tx) (extrinsics (block b)) unset w1 Hok)
    as (w2 & E2 & D2).
  unfold App.getGlitchInfo_scan in E1. rewrite E2 in E1.
  unfold bind, try_catch. rewrite E1. unfold repo_save, ret. simpl.
  rewrite Hops, rounds_last_match by assumption. simpl. congruence.
Qed.

Lemma app_history_callback_overwrites_witness :
  eval (App.transactionHistory_callback Sample.api
          (Sample.record 3 "0xe3" "0xb1" (str "77") null))
       (Sample.world [Sample.record 3 "0xe3" "0xb1" (str "77") null])
  = Return (Sample.record 3 "0xe3" "0xb1" (str "77") null)
  /\ db (exec (App.transactionHistory_callback Sample.api
                 (Sample.record 3 "0xe3" "0xb1" (str "77") null))
              (Sample.world [Sample.record 3 "0xe3" "0xb1" (str "77") null]))
     = [Sample.record 3 "0xe3" "0xb1" (str "999") (str "0x03")].
Proof.
  apply (app_history_callback_overwrites Sample.api
           (Sample.record 3 "0xe3" "0xb1" (str "77") null)
           (Sample.blockOf [Sample.remark; Sample.transfer100; Sample.transfer999])
           [Sample.remark; Sample.transfer100] Sample.transfer999 []
           (Sample.world [Sample.record 3 "0xe3" "0xb1" (str "77") null])).
  - reflexivity.
  - reflexivity.
  - reflexivity.
  - reflexivity.
  - intros e [].
  - intros e He. simpl in He.
    destruct He as [<- | [<- | [<- | []]]]; reflexivity.
Defined.

(** X7.  In the first revision, when the node rejects the block of a record
    that is not enriched, the history callback catches the TypeError of
    [getGlitchInfo]: it saves nothing, answers the entity as loaded, and
    prints the same "already exists in the database" line as for an
    enriched record, followed by the error. *)
Theorem app_history_callback_survives_rejection :
  forall api tx err w,
    both_set tx = false ->
    getBlock api (tx_glitch_hash tx) = Failed err ->
    App.transactionHistory_callback api tx w
    = (Return tx,
       {| db := db w;
          trace :=
            Console "TypeError: Cannot read properties of undefined (reading 'block')"
            :: Console ("Net amount and extrinsic hash of transaction " ++ show_nat (id tx)
                          ++ " already exists in the database.")
            :: Console err
            :: GetBlock (tx_glitch_hash tx)
            :: Console ("Asking the node for block information: " ++ tx_glitch_hash tx)
            :: trace w |}).
Proof.
  intros api tx err w Hboth Hb.
  unfold App.transactionHistory_callback. fold (both_set tx). rewrite Hboth.
  unfold bind at 1. unfold try_catch, bind at 1.
  rewrite (getGlitchInfo_rejected_fetch api _ _ err w Hb).
  reflexivity.
Qed.

Lemma app_history_callback_survives_rejection_witness :
  App.transactionHistory_callback Sample.api
    (Sample.record 8 "0xe8" "0xffff" null null)
    (Sample.world [Sample.record 8 "0xe8" "0xffff" null null])
  = (Return (Sample.record 8 "0xe8" "0xffff" null null),
     {| db := [Sample.record 8 "0xe8" "0xffff" null null];
        trace :=
          [Console "TypeError: Cannot read properties of undefined (reading 'block')";
           Console "Net amount and extrinsic hash of transaction 8 already exists in the database.";
           Console "unknown block";
           GetBlock "0xffff";
           Console "Asking the node for block information: 0xffff"] |}).
Proof.
  apply (app_history_callback_survives_rejection Sample.api
           (Sample.record 8 "0xe8" "0xffff" null null) "unknown block"
           (Sample.world [Sample.record 8 "0xe8" "0xffff" null null])).
  - reflexivity.
  - reflexivity.
Defined.

(** ** A wallet without records *)




(** ** Further properties of the transactionInfo handler *)

(** X9.  When the record found is not enriched and the node rejects the
    request of its block, the handler of both revisions answers HTTP 400
    with "Error getting information from the block: " followed by the
    rejection, saves nothing and leaves the table as it is. *)
Theorem transactionInfo_rejected_fetch :
  forall api h w tx err,
    Repository.findOne (by_tx_eth_hash h) (db w) = Some tx ->
    both_set tx = false ->
    getBlock api (tx_glitch_hash tx) = Failed err ->
    (eval (App.transactionInfo api h) w
     = Return {| status := 400;
                 body := ErrorMessage ("Error getting information from the block: " ++ err) |}
     /\ db (exec (App.transactionInfo api h) w) = db w)
    /\ (eval (Part000.transactionInfo api h) w
        = Return {| status := 400;
                    body := ErrorMessage ("Error getting information from the block: "
                                            ++ err) |}
        /\ db (exec (Part000.transactionInfo api h) w) = db w).
Proof.
  intros api h w tx err Hfind Hboth Hb.
  split; [unfold App.transactionInfo | unfold Part000.transactionInfo];
    now apply (info_rejected _ api h w tx err).
Qed.

Lemma transactionInfo_rejected_fetch_witness :
  (eval (App.transactionInfo Sample.api "0xe8")
        (Sample.world [Sample.record 8 "0xe8" "0xffff" null null])
   = Return {| status := 400;
               body := ErrorMessage "Error getting information from the block: unknown block" |}
   /\ db (exec (App.transactionInfo Sample.api "0xe8")
               (Sample.world [Sample.record 8 "0xe8" "0xffff" null null]))
      = [Sample.record 8 "0xe8" "0xffff" null null])
  /\ (eval (Part000.transactionInfo Sample.api "0xe8")
           (Sample.world [Sample.record 8 "0xe8" "0xffff" null null])
      = Return {| status := 400;
                  body := ErrorMessage "Error getting information from the block: unknown block" |}
      /\ db (exec (Part000.transactionInfo Sample.api "0xe8")
                  (Sample.world [Sample.record 8 "0xe8" "0xffff" null null]))
         = [Sample.record 8 "0xe8" "0xffff" null null]).
Proof.
  apply (transactionInfo_rejected_fetch Sample.api "0xe8"
           (Sample.world [Sample.record 8 "0xe8" "0xffff" null null])
           (Sample.record 8 "0xe8" "0xffff" null null) "unknown block");
    reflexivity.
Defined.

(** X10.  For a hash that some stored record carries, the handler of both
    revisions always answers, with HTTP 200 or HTTP 400, and it answers 400
    exactly when the record found is not enriched and the node rejects the
    request of its block. *)
Theorem transactionInfo_answers_for_known_hash :
  forall withMeta api h w tx,
    Repository.findOne (by_tx_eth_hash h) (db w) = Some tx ->
    exists response,
      eval (transactionInfo_handler withMeta api h) w = Return response
      /\ (status response = 200 \/ status response = 400)
      /\ (status response = 400
          <-> both_set tx = false
              /\ exists err, getBlock api (tx_glitch_hash tx) = Failed err).
Proof.
  intros m api h w tx Hfind.
  destruct (both_set tx) eqn:Hboth.
  - eexists. unfold eval. rewrite (info_enriched m api h w tx Hfind Hboth). simpl.
    split; [reflexivity |]. split; [now left |].
    split; [discriminate | intros [Hf _]; discriminate].
  - destruct (getBlock api (tx_glitch_hash tx)) as [b | err] eqn:Hb.
    + destruct (info_fetched m api h w tx b Hfind Hboth Hb) as (events & E).
      eexists. unfold eval. rewrite E. simpl.
      split; [reflexivity |]. split; [now left |].
      split; [discriminate | intros [_ [err Herr]]; discriminate].
    + destruct (info_rejected m api h w tx err Hfind Hboth Hb) as [E _].
      eexists. split; [exact E |]. simpl. split; [now right |].
      split; [intros _; split; [reflexivity | now exists err] | reflexivity].
Qed.

Lemma transactionInfo_answers_for_known_hash_witness :
  exists response,
    eval (transactionInfo_handler true Sample.api "0xe8")
         (Sample.world [Sample.record 8 "0xe8" "0xffff" null null]) = Return response
    /\ (status response = 200 \/ status response = 400)
    /\ (status response = 400
        <-> both_set (Sample.record 8 "0xe8" "0xffff" null null) = false
            /\ exists err,
                 getBlock Sample.api
                   (tx_glitch_hash (Sample.record 8 "0xe8" "0xffff" null null))
                 = Failed err).
Proof.
  apply (transactionInfo_answers_for_known_hash true Sample.api "0xe8"
           (Sample.world [Sample.record 8 "0xe8" "0xffff" null null])
           (Sample.record 8 "0xe8" "0xffff" null null)).
  reflexivity.
Defined.

Lemma findOne_after_save h tx new rows :
  unique_ids rows ->
  id new = id tx ->
  tx_eth_hash new = tx_eth_hash tx ->
  Repository.findOne (by_tx_eth_hash h) rows = Some tx ->
  Repository.findOne (by_tx_eth_hash h) (Repository.save new rows)
  = Some (Repository.update tx new).
Proof.
  unfold Repository.findOne, unique_ids. intros Hu Hid Hh.
  induction rows as [| r rows IH]; simpl; [discriminate |].
  apply NoDup_cons_iff in Hu as [Hnot Hu].
  destruct (Repository.satisfies (by_tx_eth_hash h) r) eqn:Hs.
  - intros E. injection E as ->. rewrite Hid, Nat.eqb_refl. simpl.
    assert (Hs' : Repository.satisfies (by_tx_eth_hash h) (Repository.update tx new) = true).
    { unfold Repository.satisfies, by_tx_eth_hash in *. simpl in *. now rewrite Hh. }
    now rewrite Hs'.
  - intros E. destruct (Nat.eqb (id r) (id new)) eqn:Eid.
    + exfalso. apply Nat.eqb_eq in Eid. apply Hnot.
      apply find_some in E as [Hin _]. rewrite Eid, Hid. now apply in_map.
    + simpl. rewrite Hs. now apply IH.
Qed.

Lemma update_assigned tx a b :
  Repository.update tx (assign tx (str a) (str b)) = assign tx (str a) (str b).
Proof. reflexivity. Qed.

(** X11.  A request to transactionInfo that enriched a record answers the
    same to the next request for the same hash without asking the node
    again: when the last Operation of the block has a non-empty second
    argument and a non-empty hash, the second request (in either revision)
    answers HTTP 200 with the values of the first, only prints its two
    lines, and leaves the table as the first request left it.  Keys are
    unique. *)
Theorem transactionInfo_second_request :
  forall first second api h w tx b pre ex a,
    unique_ids (db w) ->
    Repository.findOne (by_tx_eth_hash h) (db w) = Some tx ->
    both_set tx = false ->
    getBlock api (tx_glitch_hash tx) = Fetched b ->
    extrinsics (block b) = pre ++ [ex] ->
    nth_error (args ex) 1 = Some a ->
    toString a <> "" ->
    toHex (hash ex) <> "" ->
    eval (transactionInfo_handler first api h) w
    = Return {| status := 200;
                body := Settlement (str (toString a)) (str (toHex (hash ex))) |}
    /\ transactionInfo_handler second api h (exec (transactionInfo_handler first api h) w)
       = (Return {| status := 200;
                    body := Settlement (str (toString a)) (str (toHex (hash ex))) |},
          {| db := db (exec (transactionInfo_handler first api h) w);
             trace := Console "The information is already in the database."
                      :: Console ("Getting information from eth transaction with id " ++ h)
                      :: trace (exec (transactionInfo_handler first api h) w) |}).
Proof.
  intros m1 m2 api h w tx b pre ex a Hu Hfind Hboth Hb Hops Ha Hna Hnh.
  destruct (info_fetched m1 api h w tx b Hfind Hboth Hb) as (events & E).
  rewrite Hops, after_all_last in E. unfold settlement_of, at_ in E.
  rewrite nth_error_map, Ha in E. simpl in E.
  unfold eval, exec. rewrite E. simpl. split; [reflexivity |].
  assert (Hfind' : Repository.findOne (by_tx_eth_hash h)
                     (Repository.save (assign tx (str (toString a)) (str (toHex (hash ex))))
                        (db w))
                   = Some (assign tx (str (toString a)) (str (toHex (hash ex))))).
  { rewrite <- update_assigned. now apply findOne_after_save. }
  match goal with
  | |- transactionInfo_handler m2 api h ?w1 = _ =>
      rewrite (info_enriched m2 api h w1 _ Hfind'); [reflexivity |]
  end.
  unfold both_set. simpl.
  apply String.eqb_neq in Hna, Hnh. now rewrite Hna, Hnh.
Qed.

Lemma transactionInfo_second_request_witness :
  eval (transactionInfo_handler false Sample.api "0xe1")
       (Sample.world [Sample.record 1 "0xe1" "0xb1" null null])
  = Return {| status := 200; body := Settlement (str "999") (str "0x03") |}
  /\ transactionInfo_handler true Sample.api "0xe1"
       (exec (transactionInfo_handler false Sample.api "0xe1")
             (Sample.world [Sample.record 1 "0xe1" "0xb1" null null]))
     = (Return {| status := 200; body := Settlement (str "999") (str "0x03") |},
        {| db := db (exec (transactionInfo_handler false Sample.api "0xe1")
                          (Sample.world [Sample.record 1 "0xe1" "0xb1" null null]));
           trace := Console "The information is already in the database."
                    :: Console ("Getting information from eth transaction with id " ++ "0xe1")
                    :: trace (exec (transactionInfo_handler false Sample.api "0xe1")
                                   (Sample.world [Sample.record 1 "0xe1" "0xb1" null null])) |}).
Proof.
  apply (transactionInfo_second_request false true Sample.api "0xe1"
           (Sample.world [Sample.record 1 "0xe1" "0xb1" null null])
           (Sample.record 1 "0xe1" "0xb1" null null)
           (Sample.blockOf [Sample.remark; Sample.transfer100; Sample.transfer999])
           [Sample.remark; Sample.transfer100] Sample.transfer999 (Build_Codec "999")).
  - unfold unique_ids. simpl. constructor; [intros [] | constructor].
  - reflexivity.
  - reflexivity.
  - reflexivity.
  - reflexivity.
  - reflexivity.
  - simpl. discriminate.
  - simpl. discriminate.
Defined.

(** ** What no request changes *)








(** ** Further properties of the history handler of src/unnamed/part_000 *)

Lemma part_callback_exact g api provider tx w :
  eval (Part000.transactionHistory_callback g api provider tx) w
  = Return (answered_row g api provider tx)
  /\ db (exec (Part000.transactionHistory_callback g api provider tx) w)
     = match fst (g tx api) with
       | Return info =>
           if negb (truthy (extrinsic_hash tx)) && negb (truthy (net_amount tx))
           then Repository.save (assign tx (netAmount info) (extrinsicHash info)) (db w)
           else db w
       | Throw _ => db w
       end.
Proof.
  unfold eval, exec, answered_row, Part000.transactionHistory_callback, try_catch, bind,
    call_glitch, Part000.await, repo_save, console, emit, ret, throw.
  destruct (g tx api) as [[info | e] events]; simpl;
    [destruct (truthy (extrinsic_hash tx)); simpl;
       [| destruct (truthy (net_amount tx)); simpl] |];
    destruct (getTransaction provider (tx_eth_hash tx)) as [[t |] | err]; simpl;
    try destruct (getEthBlock provider (blockNumber t)); simpl;
    split; reflexivity.
Qed.




(** X15.  For an entity whose two fields are falsy, the later history
    callback saves what the helper resolved to, whether or not the Ethereum
    provider resolves; when the helper rejects it saves nothing, also for
    such an entity, and the rejection is caught. *)
Theorem part_history_callback_saves_helper_values :
  forall getGlitchInfo api provider tx w,
    (forall info events,
        getGlitchInfo tx api = (Return info, events) ->
        truthy (extrinsic_hash tx) = false ->
        truthy (net_amount tx) = false ->
        db (exec (Part000.transactionHistory_callback getGlitchInfo api provider tx) w)
        = Repository.save (assign tx (netAmount info) (extrinsicHash info)) (db w))
    /\ (forall e events,
           getGlitchInfo tx api = (Throw e, events) ->
           db (exec (Part000.transactionHistory_callback getGlitchInfo api provider tx) w)
           = db w
           /\ exists row,
                eval (Part000.transactionHistory_callback getGlitchInfo api provider tx) w
                = Return row).
Proof.
  intros g api provider tx w.
  destruct (part_callback_exact g api provider tx w) as [Ev D]. split.
  - intros info events Hg He Hn. rewrite D, Hg. simpl. now rewrite He, Hn.
  - intros e events Hg. rewrite D, Hg. simpl. split; [reflexivity |].
    eexists. exact Ev.
Qed.

Lemma part_history_callback_saves_helper_values_witness :
  db (exec (Part000.transactionHistory_callback Glitch.getGlitchInfo Sample.api
              {| getTransaction := fun _ => Failed "no provider";
                 getEthBlock := fun _ => Failed "no provider" |}
              (Sample.record 1 "0xe1" "0xb1" null null))
           (Sample.world [Sample.record 1 "0xe1" "0xb1" null null]))
  = [Sample.record 1 "0xe1" "0xb1" (str "100") (str "0x02")]
  /\ db (exec (Part000.transactionHistory_callback Glitch.getGlitchInfo Sample.api
                 Sample.provider (Sample.record 8 "0xe8" "0xffff" null null))
              (Sample.world [Sample.record 8 "0xe8" "0xffff" null null]))
     = [Sample.record 8 "0xe8" "0xffff" null null].
Proof.
  split.
  - apply (proj1 (part_history_callback_saves_helper_values Glitch.getGlitchInfo Sample.api
                    {| getTransaction := fun _ => Failed "no provider";
                       getEthBlock := fun _ => Failed "no provider" |}
                    (Sample.record 1 "0xe1" "0xb1" null null)
                    (Sample.world [Sample.record 1 "0xe1" "0xb1" null null]))
             {| netAmount := str "100"; extrinsicHash := str "0x02";
                glitchFee := str "125"; timestamp := str "1667300000000" |}
             (snd (Glitch.getGlitchInfo (Sample.record 1 "0xe1" "0xb1" null null) Sample.api)));
      reflexivity.
  - apply (proj2 (part_history_callback_saves_helper_values Glitch.getGlitchInfo Sample.api
                    Sample.provider (Sample.record 8 "0xe8" "0xffff" null null)
                    (Sample.world [Sample.record 8 "0xe8" "0xffff" null null]))
             (Rejected "unknown block") [GetBlock "0xffff"]).
    reflexivity.
Defined.



(** X17.  After the later history callback has enriched a record (both
    fields falsy, the helper resolving to a non-empty amount and hash), a
    request to transactionInfo for the hash of that record, in either
    revision, answers HTTP 200 with the values the helper resolved to,
    without asking the node for the block and without saving: the value
    stored first is the one both endpoints answer.  Keys are unique. *)
Theorem history_then_transactionInfo :
  forall getGlitchInfo api provider withMeta h tx info events a e w,
    unique_ids (db w) ->
    Repository.findOne (by_tx_eth_hash h) (db w) = Some tx ->
    truthy (extrinsic_hash tx) = false ->
    truthy (net_amount tx) = false ->
    getGlitchInfo tx api = (Return info, events) ->
    netAmount info = str a -> a <> "" ->
    extrinsicHash info = str e -> e <> "" ->
    transactionInfo_handler withMeta api h
      (exec (Part000.transactionHistory_callback getGlitchInfo api provider tx) w)
    = (Return {| status := 200; body := Settlement (str a) (str e) |},
       {| db := Repository.save (assign tx (str a) (str e)) (db w);
          trace := Console "The information is already in the database."
                   :: Console ("Getting information from eth transaction with id " ++ h)
                   :: trace (exec (Part000.transactionHistory_callback
                                     getGlitchInfo api provider tx) w) |}).
Proof.
  intros g api provider m h tx info events a e w Hu Hfind He Hn Hg Ha Hna Hh Hne.
  destruct (part_callback_exact g api provider tx w) as [_ D].
  rewrite Hg in D. simpl in D. rewrite He, Hn, Ha, Hh in D. simpl in D.
  assert (Hfind' : Repository.findOne (by_tx_eth_hash h)
                     (db (exec (Part000.transactionHistory_callback g api provider tx) w))
                   = Some (assign tx (str a) (str e))).
  { rewrite D, <- update_assigned. now apply findOne_after_save. }
  rewrite (info_enriched m api h _ _ Hfind').
  - now rewrite D.
  - unfold both_set. simpl. apply String.eqb_neq in Hna, Hne. now rewrite Hna, Hne.
Qed.

Lemma history_then_transactionInfo_witness :
  transactionInfo_handler true Sample.api "0xe1"
    (exec (Part000.transactionHistory_callback Glitch.getGlitchInfo Sample.api
             Sample.provider (Sample.record 1 "0xe1" "0xb1" null null))
          (Sample.world [Sample.record 1 "0xe1" "0xb1" null null]))
  = (Return {| status := 200; body := Settlement (str "100") (str "0x02") |},
     {| db := Repository.save
                (assign (Sample.record 1 "0xe1" "0xb1" null null) (str "100") (str "0x02"))
                (db (Sample.world [Sample.record 1 "0xe1" "0xb1" null null]));
        trace := Console "The information is already in the database."
                 :: Console ("Getting information from eth transaction with id " ++ "0xe1")
                 :: trace (exec (Part000.transactionHistory_callback Glitch.getGlitchInfo
                                   Sample.api Sample.provider
                                   (Sample.record 1 "0xe1" "0xb1" null null))
                                (Sample.world [Sample.record 1 "0xe1" "0xb1" null null])) |}).
Proof.
  apply (history_then_transactionInfo Glitch.getGlitchInfo Sample.api Sample.provider true
           "0xe1" (Sample.record 1 "0xe1" "0xb1" null null)
           {| netAmount := str "100"; extrinsicHash := str "0x02";
              glitchFee := str "125"; timestamp := str "1667300000000" |}
           (snd (Glitch.getGlitchInfo (Sample.record 1 "0xe1" "0xb1" null null) Sample.api))
           "100" "0x02").
  - unfold unique_ids. simpl. constructor; [intros [] | constructor].
  - reflexivity.
  - reflexivity.
  - reflexivity.
  - reflexivity.
  - reflexivity.
  - discriminate.
  - reflexivity.
  - discriminate.
Defined.

(** ** Records that are all enriched *)

Lemma app_callbacks_enriched api txs : forall w,
  (forall tx, In tx txs -> both_set tx = true) ->
  mapM (App.transactionHistory_callback api) txs w
  = (Return txs,
     {| db := db w;
        trace := rev (map (fun tx =>
                   Console ("Net amount and extrinsic hash of transaction "
                              ++ show_nat (id tx) ++ " already exists in the database."))
                   txs) ++ trace w |}).
Proof.
  induction txs as [| tx txs IH]; intros w Hall; simpl.
  - unfold ret. now rewrite world_eta.
  - unfold bind at 1. unfold App.transactionHistory_callback at 1.
    fold (both_set tx). rewrite (Hall tx) by now left.
    unfold bind at 1. unfold console, emit, ret at 1. simpl.
    unfold bind at 1. rewrite IH by (intros tx' Htx'; apply Hall; now right).
    unfold ret. simpl. now rewrite <- app_assoc.
Qed.

(** X18.  When every record of the wallet has both fields set, the history
    handler of the first revision asks nothing of the node and saves
    nothing: besides its two lines it prints one "already exists" line per
    record, in order, and the table is left as it is. *)
Theorem app_history_of_enriched_wallet :
  forall api wallet w,
    (forall r, In r (db w) -> concerns wallet r = true -> both_set r = true) ->
    exec (App.transactionHistory api wallet) w
    = {| db := db w;
         trace :=
           rev (map (fun tx =>
                  Console ("Net amount and extrinsic hash of transaction "
                             ++ show_nat (id tx) ++ " already exists in the database."))
                  (filter (concerns wallet) (db w)))
           ++ Console (show_nat (length (filter (concerns wallet) (db w)))
                         ++ " transactions was found!")
           :: Console ("Obtaining the transaction history of address " ++ wallet)
           :: trace w |}.
Proof.
  intros api wallet w Hall.
  unfold exec, App.transactionHistory, bind, repo_find, console, emit, ret.
  cbn [db trace]. rewrite find_all_concerned.
  rewrite app_callbacks_enriched; [reflexivity |].
  intros tx Htx. apply filter_In in Htx as [Hin Hc]. now apply Hall.
Qed.

Lemma app_history_of_enriched_wallet_witness :
  exec (App.transactionHistory Sample.api "0xAA")
       (Sample.world [Sample.record 1 "0xe1" "0xb1" (str "100") (str "0x02")])
  = {| db := [Sample.record 1 "0xe1" "0xb1" (str "100") (str "0x02")];
       trace :=
         rev (map (fun tx =>
                Console ("Net amount and extrinsic hash of transaction "
                           ++ show_nat (id tx) ++ " already exists in the database."))
                (filter (concerns "0xAA")
                   [Sample.record 1 "0xe1" "0xb1" (str "100") (str "0x02")]))
         ++ Console (show_nat (length (filter (concerns "0xAA")
                        [Sample.record 1 "0xe1" "0xb1" (str "100") (str "0x02")]))
                       ++ " transactions was found!")
         :: Console ("Obtaining the transaction history of address " ++ "0xAA")
         :: [] |}.
Proof.
  apply (app_history_of_enriched_wallet Sample.api "0xAA"
           (Sample.world [Sample.record 1 "0xe1" "0xb1" (str "100") (str "0x02")])).
  intros r [<- | []] _. reflexivity.
Defined.

(** ** GET /api/validators *)

(** X19.  The validators handler answers only when the three queries of the
    node all resolve, and then with HTTP 200: the era as rendered, the total
    stake of that very era, and as [stakersCount] the number of validators
    when their human form is an array, no count otherwise.  When a query
    is rejected the handler throws that rejection (nothing catches it) and
    the later queries are not reached.  It never touches the table or the
    console. *)
Theorem validators_outcome :
  forall query w,
    exec (Validators.validators query) w = w
    /\ match eval (Validators.validators query) w with
       | Return response =>
           exists era stake vs,
             Validators.staking_currentEra query = Fetched era
             /\ Validators.staking_erasTotalStake query (toString era) = Fetched stake
             /\ Validators.session_validators query = Fetched vs
             /\ response
                = {| Validators.code := 200;
                     Validators.answer :=
                       {| Validators.currentEra := toString era;
                          Validators.stakersCount :=
                            match Validators.toHuman vs with
                            | Validators.JsonArray items => Some (length items)
                            | Validators.JsonOther _ => None
                            end;
                          Validators.totalStake := toString stake |} |}
       | Throw e =>
           exists err,
             e = Rejected err
             /\ (Validators.staking_currentEra query = Failed err
                 \/ (exists era,
                        Validators.staking_currentEra query = Fetched era
                        /\ (Validators.staking_erasTotalStake query (toString era) = Failed err
                            \/ (exists stake,
                                   Validators.staking_erasTotalStake query (toString era)
                                   = Fetched stake
                                   /\ Validators.session_validators query = Failed err))))
       end.
Proof.
  intros query w.
  unfold exec, eval, Validators.validators, Validators.awaited, bind, ret, throw.
  destruct (Validators.staking_currentEra query) as [era | err] eqn:He; simpl.
  - destruct (Validators.staking_erasTotalStake query (toString era)) as [stake | err] eqn:Hs;
      simpl.
    + destruct (Validators.session_validators query) as [vs | err] eqn:Hv; simpl.
      * split; [reflexivity |]. exists era, stake, vs. now repeat split.
      * split; [reflexivity |]. exists err. split; [reflexivity |].
        right. exists era. split; [reflexivity |]. right. exists stake. now split.
    + split; [reflexivity |]. exists err. split; [reflexivity |].
      right. exists era. split; [reflexivity |]. now left.
  - split; [reflexivity |]. exists err. split; [reflexivity |]. now left.
Qed.

Example validators_sample :
  eval (Validators.validators sample_query) (Sample.world [])
  = Return {| Validators.code := 200;
              Validators.answer := {| Validators.currentEra := "412";
                                      Validators.stakersCount := Some 3;
                                      Validators.totalStake := "9000" |} |}.
Proof. reflexivity. Qed.

(** ** The two revisions of the transactionInfo handler, line by line *)

Lemma info_round_exact withMeta ex v w :
  transactionInfo_callback withMeta ex v w
  = (Return (settlement_of ex),
     {| db := db w; trace := rev (info_lines withMeta ex) ++ trace w |}).
Proof.
  unfold transactionInfo_callback, settlement_of, info_lines, bind, console, emit, ret.
  simpl. destruct (isSigned ex); [destruct withMeta |]; reflexivity.
Qed.

Lemma info_rounds_exact withMeta ops : forall v w,
  forEach (transactionInfo_callback withMeta) ops v w
  = (Return (after_all ops v),
     {| db := db w; trace := rev (flat_map (info_lines withMeta) ops) ++ trace w |}).
Proof.
  induction ops as [| ex ops IH]; intros v w.
  - simpl. unfold ret. now rewrite world_eta.
  - cbn [forEach flat_map]. unfold bind. rewrite info_round_exact, IH.
    cbn [db trace]. rewrite rev_app_distr. repeat rewrite <- app_assoc. reflexivity.
Qed.

Lemma info_fetched_exact withMeta api h w tx b :
  Repository.findOne (by_tx_eth_hash h) (db w) = Some tx ->
  both_set tx = false ->
  getBlock api (tx_glitch_hash tx) = Fetched b ->
  trace (exec (transactionInfo_handler withMeta api h) w)
  = Save (assign tx (fst (after_all (extrinsics (block b)) unset))
                    (snd (after_all (extrinsics (block b)) unset)))
    :: rev (flat_map (info_lines withMeta) (extrinsics (block b)))
    ++ GetBlock (tx_glitch_hash tx)
    :: Console ("Asking the node for block information: " ++ tx_glitch_hash tx)
    :: Console ("Getting information from eth transaction with id " ++ h)
    :: trace w.
Proof.
  intros Hfind Hboth Hb. unfold both_set in Hboth.
  unfold exec, transactionInfo_handler, bind, console, emit, repo_findOne, read, ret.
  simpl. rewrite Hfind. simpl.
  destruct (truthy (extrinsic_hash tx)); simpl in Hboth; [rewrite Hboth |];
    unfold try_catch, rpc_getBlock, bind, emit, ret; simpl; rewrite Hb; simpl;
    rewrite info_rounds_exact; reflexivity.
Qed.

Lemma info_missing_exact withMeta api h w :
  Repository.findOne (by_tx_eth_hash h) (db w) = None ->
  transactionInfo_handler withMeta api h w
  = (Throw (TypeError "Cannot read properties of undefined (reading 'extrinsic_hash')"),
     {| db := db w;
        trace := Console ("Getting information from eth transaction with id " ++ h)
                 :: trace w |}).
Proof.
  intros Hnone. unfold transactionInfo_handler, bind, console, emit, repo_findOne.
  simpl. rewrite Hnone. reflexivity.
Qed.

Lemma info_rejected_exact withMeta api h w tx err :
  Repository.findOne (by_tx_eth_hash h) (db w) = Some tx ->
  both_set tx = false ->
  getBlock api (tx_glitch_hash tx) = Failed err ->
  transactionInfo_handler withMeta api h w
  = (Return (status_json 400
               (ErrorMessage ("Error getting information from the block: " ++ err))),
     {| db := db w;
        trace := Console err
                 :: GetBlock (tx_glitch_hash tx)
                 :: Console ("Asking the node for block information: " ++ tx_glitch_hash tx)
                 :: Console ("Getting information from eth transaction with id " ++ h)
                 :: trace w |}).
Proof.
  intros Hfind Hboth Hb. unfold both_set in Hboth.
  unfold transactionInfo_handler, bind, console, emit, repo_findOne, read, ret.
  simpl. rewrite Hfind. simpl.
  destruct (truthy (extrinsic_hash tx)); simpl in Hboth;
    [rewrite Hboth |];
    unfold try_catch, rpc_getBlock, bind, emit, ret, throw; simpl; rewrite Hb; reflexivity.
Qed.

(** X12.  The two revisions of the transactionInfo handler answer the same
    (or throw the same) and leave the same table, for every request, node
    and table, and they differ in nothing but the line of [meta] that the
    later revision prints for each signed extrinsic of a fetched block:
    when a block is fetched for a record that is not enriched, the events
    of either revision are the same request, the same save and, for each
    Operation in order, its lines, with the line of [meta] only in the
    later revision; on every other path the two revisions leave the very
    same world. *)
Theorem transactionInfo_revisions_agree :
  forall api h w,
    eval (App.transactionInfo api h) w = eval (Part000.transactionInfo api h) w
    /\ db (exec (App.transactionInfo api h) w) = db (exec (Part000.transactionInfo api h) w)
    /\ (forall tx b,
           Repository.findOne (by_tx_eth_hash h) (db w) = Some tx ->
           both_set tx = false ->
           getBlock api (tx_glitch_hash tx) = Fetched b ->
           trace (exec (App.transactionInfo api h) w)
           = Save (assign tx (fst (after_all (extrinsics (block b)) unset))
                             (snd (after_all (extrinsics (block b)) unset)))
             :: rev (flat_map (info_lines false) (extrinsics (block b)))
             ++ GetBlock (tx_glitch_hash tx)
             :: Console ("Asking the node for block information: " ++ tx_glitch_hash tx)
             :: Console ("Getting information from eth transaction with id " ++ h)
             :: trace w
           /\ trace (exec (Part000.transactionInfo api h) w)
              = Save (assign tx (fst (after_all (extrinsics (block b)) unset))
                                (snd (after_all (extrinsics (block b)) unset)))
                :: rev (flat_map (info_lines true) (extrinsics (block b)))
                ++ GetBlock (tx_glitch_hash tx)
                :: Console ("Asking the node for block information: " ++ tx_glitch_hash tx)
                :: Console ("Getting information from eth transaction with id " ++ h)
                :: trace w)
    /\ ((forall tx, Repository.findOne (by_tx_eth_hash h) (db w) = Some tx ->
                    both_set tx = true
                    \/ exists err, getBlock api (tx_glitch_hash tx) = Failed err) ->
        exec (App.transactionInfo api h) w = exec (Part000.transactionInfo api h) w).
Proof.
  intros api h w. unfold App.transactionInfo, Part000.transactionInfo.
  destruct (Repository.findOne (by_tx_eth_hash h) (db w)) as [tx |] eqn:Hfind.
  - destruct (both_set tx) eqn:Hboth.
    + unfold eval, exec. rewrite !(info_enriched _ api h w tx Hfind Hboth).
      split; [reflexivity | split; [reflexivity | split; [| reflexivity]]].
      intros tx' b' E Hnot _. injection E as <-. congruence.
    + destruct (getBlock api (tx_glitch_hash tx)) as [b | err] eqn:Hb.
      * destruct (info_fetched false api h w tx b Hfind Hboth Hb) as (ev1 & E1).
        destruct (info_fetched true api h w tx b Hfind Hboth Hb) as (ev2 & E2).
        split; [unfold eval; now rewrite E1, E2 |].
        split; [unfold exec; now rewrite E1, E2 |].
        split.
        -- intros tx' b' E _ Hb'. injection E as <-.
           rewrite Hb in Hb'. injection Hb' as <-.
           split; now apply info_fetched_exact.
        -- intros Hother. exfalso.
           destruct (Hother tx eq_refl) as [Hset | (err & Herr)]; congruence.
      * unfold eval, exec.
        rewrite !(info_rejected_exact _ api h w tx err Hfind Hboth Hb).
        split; [reflexivity | split; [reflexivity | split; [| reflexivity]]].
        intros tx' b' E _ Hb'. injection E as <-. congruence.
  - unfold eval, exec. rewrite !(info_missing_exact _ api h w Hfind).
    split; [reflexivity | split; [reflexivity | split; [| reflexivity]]].
    intros tx b E. discriminate E.
Qed.

Lemma transactionInfo_revisions_agree_witness :
  trace (exec (App.transactionInfo
                 {| getBlock := fun _ => Fetched (Sample.blockOf
                      [{| isSigned := true; meta := "transfer(dest, value)";
                          args := args Sample.transfer100;
                          method := "transfer"; section := "balances";
                          hash := hash Sample.transfer100;
                          signer := Build_Codec "5Gr"; nonce := Build_Codec "3" |}]);
                    feeAt := fun _ => undefined; timestampAt := fun _ => undefined |}
                 "0xe1")
              (Sample.world [Sample.record 1 "0xe1" "0xb1" null null]))
  = [Save (Sample.record 1 "0xe1" "0xb1" (str "100") (str "0x02"));
     Console "signer=5Gr, nonce=3";
     Console "balances.transfer(0xAA, 100)";
     GetBlock "0xb1";
     Console "Asking the node for block information: 0xb1";
     Console "Getting information from eth transaction with id 0xe1"]
  /\ trace (exec (Part000.transactionInfo
                    {| getBlock := fun _ => Fetched (Sample.blockOf
                         [{| isSigned := true; meta := "transfer(dest, value)";
                             args := args Sample.transfer100;
                             method := "transfer"; section := "balances";
                             hash := hash Sample.transfer100;
                             signer := Build_Codec "5Gr"; nonce := Build_Codec "3" |}]);
                       feeAt := fun _ => undefined; timestampAt := fun _ => undefined |}
                    "0xe1")
                 (Sample.world [Sample.record 1 "0xe1" "0xb1" null null]))
     = [Save (Sample.record 1 "0xe1" "0xb1" (str "100") (str "0x02"));
        Console "signer=5Gr, nonce=3";
        Console "transfer(dest, value)";
        Console "balances.transfer(0xAA, 100)";
        GetBlock "0xb1";
        Console "Asking the node for block information: 0xb1";
        Console "Getting information from eth transaction with id 0xe1"].
Proof.
  apply (proj1 (proj2 (proj2 (transactionInfo_revisions_agree
           {| getBlock := fun _ => Fetched (Sample.blockOf
                [{| isSigned := true; meta := "transfer(dest, value)";
                    args := args Sample.transfer100;
                    method := "transfer"; section := "balances";
                    hash := hash Sample.transfer100;
                    signer := Build_Codec "5Gr"; nonce := Build_Codec "3" |}]);
              feeAt := fun _ => undefined; timestampAt := fun _ => undefined |}
           "0xe1" (Sample.world [Sample.record 1 "0xe1" "0xb1" null null]))))
           (Sample.record 1 "0xe1" "0xb1" null null)
           (Sample.blockOf
              [{| isSigned := true; meta := "transfer(dest, value)";
                  args := args Sample.transfer100;
                  method := "transfer"; section := "balances";
                  hash := hash Sample.transfer100;
                  signer := Build_Codec "5Gr"; nonce := Build_Codec "3" |}]));
    reflexivity.
Defined.

(** ** The two settlement fields when runs overlap *)












(** X20.  Runs that overlap can overwrite a record that has both fields
    set.  A transactionInfo run loads a record that has no field set; before
    its save settles, a history run of the first revision loads the same
    record and its save settles: both fields are set, to the amount and hash
    of the matching transfer.  Then the save of the first run settles and
    overwrites both with the second argument and the hash of the last
    Operation of the block. *)
Lemma overlapping_runs_overwrite :
  table (overlapped Glitch.getGlitchInfo overlap_api
           [Arrives (GetInfoApp "0xe1"); Arrives (GetHistoryApp "0xAA"); Settles 1]
           {| table := [Sample.record 1 "0xe1" "0xb1" null null]; in_flight := [] |})
  = [Sample.record 1 "0xe1" "0xb1" (str "100") (str "0x02")]
  /\ table (overlapped Glitch.getGlitchInfo overlap_api
              [Arrives (GetInfoApp "0xe1"); Arrives (GetHistoryApp "0xAA"); Settles 1;
               Settles 0]
              {| table := [Sample.record 1 "0xe1" "0xb1" null null]; in_flight := [] |})
     = [Sample.record 1 "0xe1" "0xb1" (str "7") (str "0x07")].
Proof. split; reflexivity. Qed.



(** ** A limit that is no number *)

Lemma no_numeral_no_digit c : starts_no_numeral c = true -> digit_of c = None.
Proof.
  unfold starts_no_numeral, digit_of. cbv zeta.
  destruct (Nat.leb_spec 48 (Ascii.nat_of_ascii c)) as [H48 | H48];
    destruct (Nat.leb_spec (Ascii.nat_of_ascii c) 57) as [H57 | H57];
    try reflexivity.
  destruct (Nat.leb_spec 65 (Ascii.nat_of_ascii c)) as [H65 | H65];
    destruct (Nat.leb_spec 97 (Ascii.nat_of_ascii c)) as [H97 | H97];
    simpl; try discriminate; lia.
Qed.

(** X21.  When [limit] is a text that starts with a letter other than I
    (so that it reads as no number), the history handler of the later
    revision prints its two lines, the second with the texts as received,
    and then [find] rejects: the handler throws that rejection, so no
    response is written, nothing is asked of the node or the helper and
    nothing is saved. *)
Theorem part_history_limit_no_number :
  forall getGlitchInfo api provider wallet query c rest w,
    Part000.query_limit query = Some (Part000.QText (String c rest)) ->
    starts_no_numeral c = true ->
    Part000.transactionHistory getGlitchInfo api provider wallet query w
    = (Throw (Rejected
                "Provided take value is not a number. Please provide a numeric value."),
       {| db := db w;
          trace := Console ("Searching " ++ String c rest ++ " transaction on page "
                              ++ Part000.rendering_of
                                   (Part000.or_default (Part000.query_page query) 0)
                              ++ ".")
                   :: Console ("Obtaining the transaction history of address " ++ wallet)
                   :: trace w |}).
Proof.
  intros g api provider wallet query c rest w Hlimit Hc.
  assert (Hnan : Part000.number_of (Part000.or_default (Part000.query_limit query) 10) = NaN).
  { rewrite Hlimit.
    cbv [Part000.or_default Part000.number_of Part000.rendering_of to_number].
    cbn [digits_from]. rewrite (no_numeral_no_digit c Hc). now rewrite Hc. }
  unfold Part000.transactionHistory, bind, repo_find, console, emit, ret, Repository.find.
  cbn [db trace Repository.take Repository.skip Repository.where_].
  rewrite Hnan. cbn [times]. rewrite Hlimit. reflexivity.
Qed.

Lemma part_history_limit_no_number_witness :
  Part000.transactionHistory Glitch.getGlitchInfo Sample.api Sample.provider "0xAA"
    {| Part000.query_page := Some (Part000.QText "2");
       Part000.query_limit := Some (Part000.QText "abc") |}
    (Sample.world [Sample.record 1 "0xe1" "0xb1" null null])
  = (Throw (Rejected
              "Provided take value is not a number. Please provide a numeric value."),
     {| db := [Sample.record 1 "0xe1" "0xb1" null null];
        trace := [Console "Searching abc transaction on page 2.";
                  Console "Obtaining the transaction history of address 0xAA"] |}).
Proof.
  apply (part_history_limit_no_number Glitch.getGlitchInfo Sample.api Sample.provider "0xAA"
           {| Part000.query_page := Some (Part000.QText "2");
              Part000.query_limit := Some (Part000.QText "abc") |}
           (Ascii.Ascii true false false false false true true false) "bc"
           (Sample.world [Sample.record 1 "0xe1" "0xb1" null null])).
  - reflexivity.
  - reflexivity.
Defined.
